(** * The authentication core of the HR automation API

    A shallow embedding of [app/auth.py], [app/crud.py] (hashing part),
    the access control, the registration, the login and the candidate
    handlers of [app/main.py] with its exception handlers, and the path
    test of [app/openapi.py], together with the properties of the
    credential hasher, the token issuer and verifier, the access guard and
    the handlers.

    Conventions.
    - A Python [str] is a Rocq [string] holding its UTF-8 bytes, so
      [s.encode()] is the identity and [+] is [++].  A [str] with a lone
      surrogate has no UTF-8 encoding ([s.encode()] raises
      UnicodeEncodeError on it) and is not a value of the model.
    - A [datetime] is a number of microseconds since the Unix epoch and a
      [timedelta] a number of microseconds, both in [Z], with Python's
      range checks written out.
    - A function that can raise returns an [outcome]; [HTTPException] is a
      record with the status code, the detail string and the headers.
    - The third-party libraries are modelled at their interface: SHA-256 of
      [hashlib] is implemented bit for bit, [jwt] (PyJWT 2.10) symbolically
      (a token is a term carrying the key it was signed with), [bcrypt]
      (4.0 and later) by its digest layout and its limit of 72 bytes over an
      arbitrary key-derivation function. *)

From Stdlib Require Import ZArith List Ascii String Bool Lia DecimalString.
From stdpp Require Import base option list strings gmap.

Local Open Scope string_scope.
Local Open Scope Z_scope.

(** ** Python values and exceptions *)

Module py.

(** Exceptions that reach the caller of the modelled functions. *)
Record HTTPException := mkHTTP {
  status_code : Z;
  detail : string;
  headers : list (string * string)
}.

(** The subclasses of [jwt.InvalidTokenError] that [jwt.decode] raises. *)
Inductive token_error :=
| DecodeError
| InvalidAlgorithmError
| InvalidSignatureError
| ExpiredSignatureError
| ImmatureSignatureError
| InvalidIssuedAtError
| InvalidAudienceError
| InvalidSubjectError
| InvalidJTIError.

Inductive exc :=
| ValueError (msg : string)
| TypeError (msg : string)
| OverflowError (msg : string)
| NotImplementedError (msg : string)
| InvalidKeyError
| InvalidTokenError (k : token_error)
| ValidationError
| MultipleResultsFound
| HTTP (e : HTTPException).

Inductive outcome (A : Type) :=
| Return (a : A)
| Raise (e : exc).
Arguments Return {A} a.
Arguments Raise {A} e.

Definition bind {A B} (m : outcome A) (k : A -> outcome B) : outcome B :=
  match m with
  | Return a => k a
  | Raise e => Raise e
  end.

(** Truthiness of a nullable Boolean column: [None] is falsy. *)
Definition truthy (o : option bool) : bool := default false o.

(** The bytes of a [str]. *)
Definition bytes_of (s : string) : list Z :=
  map (fun c => Z.of_N (N_of_ascii c)) (list_ascii_of_string s).

Definition is_ascii (s : string) : bool :=
  forallb (fun b => b <? 128) (bytes_of s).

(** [secrets.compare_digest] on two [str]: both must be ASCII. *)
Definition compare_digest (a b : string) : outcome bool :=
  if is_ascii a && is_ascii b then Return (bool_decide (a = b))
  else Raise (TypeError "comparing strings with non-ASCII characters is not supported").

(** *** [int(s)] for a [str], in base ten (CPython 3.11)

    The text is first brought to ASCII: a character below 127 stays, a
    Unicode white space becomes a space, a Unicode decimal digit becomes
    the ASCII digit of its value, and anything else (also a byte that is
    not part of a well-formed UTF-8 sequence, which the environment hands
    over as a lone surrogate) becomes [?].  Then come white space, an
    optional sign, digits with single underscores between them, and white
    space to the end.  More than 4300 digits are refused.  The message of
    an invalid literal ends with the [repr] of the text, which is left out
    here. *)
Definition is_space (b : Z) : bool :=
  ((9 <=? b) && (b <=? 13)) || (b =? 32).
Definition is_digit (b : Z) : bool := (48 <=? b) && (b <=? 57).

(** The white space of [str.isspace] from 127 on. *)
Definition unicode_spaces : list Z :=
  [133; 160; 5760; 8192; 8193; 8194; 8195; 8196; 8197; 8198; 8199; 8200;
   8201; 8202; 8232; 8233; 8239; 8287; 12288].

(** The code points of the digit zero of every script with decimal
    digits (Unicode 14.0, the version of Python 3.11); the nine code
    points after each are its digits one to nine. *)
Definition decimal_zeros : list Z :=
  [1632; 1776; 1984; 2406; 2534; 2662; 2790; 2918;
   3046; 3174; 3302; 3430; 3558; 3664; 3792; 3872;
   4160; 4240; 6112; 6160; 6470; 6608; 6784; 6800;
   6992; 7088; 7232; 7248; 42528; 43216; 43264; 43472;
   43504; 43600; 44016; 65296; 66720; 68912; 69734; 69872;
   69942; 70096; 70384; 70736; 70864; 71248; 71360; 71472;
   71904; 72016; 72784; 73040; 73120; 92768; 92864; 93008;
   120782; 120792; 120802; 120812; 120822; 123200; 123632; 125264;
   130032].

Definition decimal (cp : Z) : option Z :=
  (fun zero => cp - zero)
    <$> find (fun zero => (zero <=? cp) && (cp <? zero + 10)) decimal_zeros.

Definition continuation (b : Z) : bool := (128 <=? b) && (b <=? 191).

(** The ASCII character that stands for the code point [cp], followed by
    the rest [tail] of the text; the text ends at a [?]. *)
Definition transformed (cp : Z) (tail : list Z) : list Z :=
  if bool_decide (cp ∈ unicode_spaces) then 32 :: tail
  else match decimal cp with
       | Some d => 48 + d :: tail
       | None => [63]
       end.

Fixpoint to_ascii (bs : list Z) : list Z :=
  match bs with
  | [] => []
  | b0 :: rest0 =>
      if b0 <? 127 then b0 :: to_ascii rest0
      else if b0 <? 194 then [63]
      else
        match rest0 with
        | [] => [63]
        | b1 :: rest1 =>
            if b0 <? 224 then
              if continuation b1
              then transformed ((b0 - 192) * 64 + (b1 - 128)) (to_ascii rest1)
              else [63]
            else
              match rest1 with
              | [] => [63]
              | b2 :: rest2 =>
                  if b0 <? 240 then
                    if continuation b1 && continuation b2
                       && negb ((b0 =? 224) && (b1 <? 160))
                       && negb ((b0 =? 237) && (159 <? b1))
                    then transformed
                           ((b0 - 224) * 4096 + (b1 - 128) * 64 + (b2 - 128))
                           (to_ascii rest2)
                    else [63]
                  else
                    match rest2 with
                    | [] => [63]
                    | b3 :: rest3 =>
                        if (b0 <? 245) && continuation b1 && continuation b2
                           && continuation b3
                           && negb ((b0 =? 240) && (b1 <? 144))
                           && negb ((b0 =? 244) && (143 <? b1))
                        then transformed
                               ((b0 - 240) * 262144 + (b1 - 128) * 4096
                                + (b2 - 128) * 64 + (b3 - 128))
                               (to_ascii rest3)
                        else [63]
                    end
              end
        end
  end.

Fixpoint lstrip (bs : list Z) : list Z :=
  match bs with
  | b :: bs' => if is_space b then lstrip bs' else bs
  | [] => []
  end.

(** [scan acc n after_digit bs] reads the run of digits and underscores
    at the head of [bs]: the value read, the number of digits, and what
    follows the run.  [after_digit] tells whether the previous character
    was a digit, the only place where an underscore may stand, and a digit
    must follow it. *)
Fixpoint scan (acc n : Z) (after_digit : bool) (bs : list Z)
  : option (Z * Z * list Z) :=
  match bs with
  | [] => Some (acc, n, [])
  | b :: bs' =>
      if is_digit b then scan (10 * acc + (b - 48)) (n + 1) true bs'
      else if b =? 95 then
        match bs' with
        | d :: _ => if after_digit && is_digit d then scan acc n false bs' else None
        | [] => None
        end
      else Some (acc, n, bs)
  end.

Definition max_str_digits : Z := 4300.

Definition int_of_str (s : string) : outcome Z :=
  let invalid := Raise (ValueError "invalid literal for int() with base 10") in
  let body := lstrip (to_ascii (bytes_of s)) in
  let '(negative, body) :=
    match body with
    | 45 :: ds => (true, ds)
    | 43 :: ds => (false, ds)
    | ds => (false, ds)
    end in
  match scan 0 0 false body with
  | None => invalid
  | Some (value, n, rest) =>
      if max_str_digits <? n
      then Raise (ValueError
             ("Exceeds the limit (4300 digits) for integer string conversion: value has "
              ++ NilZero.string_of_uint (N.to_uint (Z.to_N n))
              ++ " digits; use sys.set_int_max_str_digits() to increase the limit"))
      else if (n =? 0) || negb (forallb is_space rest) then invalid
      else Return (if negative : bool then - value else value)
  end.

(** [datetime] and [timedelta], in microseconds. *)
Definition datetime_min : Z := -62135596800000000.
Definition datetime_max : Z := 253402300799999999.
Definition second : Z := 1000000.
Definition minutes (n : Z) : Z := n * 60 * second.
Definition timedelta_min : Z := -86399999913600000000.
Definition timedelta_max : Z := 86399999999999999999.

(** [timedelta(minutes=n)]: the result must be within 999999999 days. *)
Definition timedelta_of_minutes (n : Z) : outcome Z :=
  if (timedelta_min <=? minutes n) && (minutes n <=? timedelta_max)
  then Return (minutes n)
  else Raise (OverflowError "days out of range").

(** [dt + td]: the result must be a date between the years 1 and 9999. *)
Definition datetime_add (dt td : Z) : outcome Z :=
  let r := dt + td in
  if (datetime_min <=? r) && (r <=? datetime_max) then Return r
  else Raise (OverflowError "date value out of range").

(** [calendar.timegm(dt.utctimetuple())]: whole seconds, rounded down. *)
Definition timegm (dt : Z) : Z := dt / second.

End py.

(** [outcome] is the error monad of the development; stdpp's
    [x ← m; k] sequences two calls and stops at the first exception. *)
#[global] Instance outcome_ret : MRet py.outcome := @py.Return.
#[global] Instance outcome_bind : MBind py.outcome :=
  fun A B k m => py.bind m k.
#[global] Instance outcome_fmap : FMap py.outcome :=
  fun A B f m => py.bind m (fun a => py.Return (f a)).

(** ** hashlib.sha256 (FIPS 180-4) on 32-bit words held in [Z] *)

Module hashlib.

Definition w32 (x : Z) : Z := x mod 2 ^ 32.
Definition add32 (x y : Z) : Z := w32 (x + y).
Definition rotr (n x : Z) : Z :=
  Z.lor (Z.shiftr x n) (w32 (Z.shiftl x (32 - n))).
Definition not32 (x : Z) : Z := 2 ^ 32 - 1 - x.

Definition ch (x y z : Z) := Z.lxor (Z.land x y) (Z.land (not32 x) z).
Definition maj (x y z : Z) :=
  Z.lxor (Z.lxor (Z.land x y) (Z.land x z)) (Z.land y z).
Definition bsig0 x := Z.lxor (Z.lxor (rotr 2 x) (rotr 13 x)) (rotr 22 x).
Definition bsig1 x := Z.lxor (Z.lxor (rotr 6 x) (rotr 11 x)) (rotr 25 x).
Definition ssig0 x := Z.lxor (Z.lxor (rotr 7 x) (rotr 18 x)) (Z.shiftr x 3).
Definition ssig1 x := Z.lxor (Z.lxor (rotr 17 x) (rotr 19 x)) (Z.shiftr x 10).

(** Round constants and initial state, in decimal. *)
Definition round_constants : list Z :=
  [1116352408; 1899447441; 3049323471; 3921009573;
   961987163; 1508970993; 2453635748; 2870763221;
   3624381080; 310598401; 607225278; 1426881987;
   1925078388; 2162078206; 2614888103; 3248222580;
   3835390401; 4022224774; 264347078; 604807628;
   770255983; 1249150122; 1555081692; 1996064986;
   2554220882; 2821834349; 2952996808; 3210313671;
   3336571891; 3584528711; 113926993; 338241895;
   666307205; 773529912; 1294757372; 1396182291;
   1695183700; 1986661051; 2177026350; 2456956037;
   2730485921; 2820302411; 3259730800; 3345764771;
   3516065817; 3600352804; 4094571909; 275423344;
   430227734; 506948616; 659060556; 883997877;
   958139571; 1322822218; 1537002063; 1747873779;
   1955562222; 2024104815; 2227730452; 2361852424;
   2428436474; 2756734187; 3204031479; 3329325298].

Definition initial_state : list Z :=
  [1779033703; 3144134277; 1013904242; 2773480762;
   1359893119; 2600822924; 528734635; 1541459225].

(** Big-endian encoding of [x] on [n] bytes. *)
Fixpoint be_bytes (n : nat) (x : Z) : list Z :=
  match n with
  | O => []
  | S n' => Z.shiftr x (8 * Z.of_nat n') mod 256 :: be_bytes n' x
  end.

Definition be_word (bs : list Z) : Z :=
  fold_left (fun acc b => acc * 256 + b) bs 0.

(** Message padding: one 1 bit, zeros up to 56 mod 64, the bit length. *)
Definition pad (msg : list Z) : list Z :=
  let len := Z.of_nat (length msg) in
  let zeros := Z.to_nat ((55 - len) mod 64) in
  msg ++ 128 :: repeat 0 zeros ++ be_bytes 8 (8 * len).

Fixpoint chunks {A} (fuel n : nat) (l : list A) : list (list A) :=
  match fuel with
  | O => []
  | S fuel' =>
      match l with
      | [] => []
      | _ => take n l :: chunks fuel' n (drop n l)
      end
  end.

Definition words_of (block : list Z) : list Z :=
  map be_word (chunks 16 4 block).

(** The message schedule, newest word first. *)
Fixpoint schedule (n : nat) (rev_w : list Z) : list Z :=
  match n with
  | O => rev_w
  | S n' =>
      let at_ i := nth i rev_w 0 in
      let wt := add32 (add32 (ssig1 (at_ 1%nat)) (at_ 6%nat))
                      (add32 (ssig0 (at_ 14%nat)) (at_ 15%nat)) in
      schedule n' (wt :: rev_w)
  end.

Definition round (st : list Z) (kw : Z * Z) : list Z :=
  match st with
  | [a; b; c; d; e; f; g; h] =>
      let t1 := add32 (add32 (add32 h (bsig1 e)) (add32 (ch e f g) kw.1)) kw.2 in
      let t2 := add32 (bsig0 a) (maj a b c) in
      [add32 t1 t2; a; b; c; add32 d t1; e; f; g]
  | _ => st
  end.

Definition compress (st : list Z) (block : list Z) : list Z :=
  let w := rev (schedule 48 (rev (words_of block))) in
  let st' := fold_left round (combine round_constants w) st in
  zip_with add32 st st'.

Definition digest (msg : list Z) : list Z :=
  let padded := pad msg in
  let blocks := chunks (length padded) 64 padded in
  flat_map (be_bytes 4) (fold_left compress blocks initial_state).

Definition hex_digit (n : Z) : ascii :=
  if n <? 10 then ascii_of_N (Z.to_N (48 + n))
  else ascii_of_N (Z.to_N (87 + n)).

Fixpoint hex (bs : list Z) : string :=
  match bs with
  | [] => ""
  | b :: bs' =>
      String (hex_digit (b / 16 mod 16)) (String (hex_digit (b mod 16)) (hex bs'))
  end.

(** [hashlib.sha256(data).hexdigest()] *)
Definition sha256_hexdigest (data : string) : string :=
  hex (digest (py.bytes_of data)).

End hashlib.

(** ** os.getenv *)

Module os.

(** The process environment once [load_dotenv()] has run. *)
Definition getenv (environ : gmap string string) (key default : string) : string :=
  match environ !! key with Some v => v | None => default end.

End os.

(** ** jwt (PyJWT), symbolically

    A token is either a string that does not parse as three base64url
    segments holding JSON, or a signed structure that records the header
    algorithm, the key that produced the signature and the claims.  A
    signature verifies exactly when the verifier's key is the signing key.
    JSON values are null, Booleans, integers and strings.  Keys in PEM or
    SSH format, which the HMAC algorithms refuse, are not modelled. *)

Module jwt.

Inductive json := JNull | JBool (b : bool) | JInt (n : Z) | JStr (s : string).

#[global] Instance json_eq_dec : EqDecision json.
Proof. solve_decision. Defined.

(** A value of the payload dictionary handed to [encode]. *)
Inductive pyval := PJson (j : json) | PDatetime (dt : Z).

Inductive token :=
| Garbage (s : string)
| Signed (alg key : string) (claims : gmap string json).

Definition hmac_algorithms : list string := ["HS256"; "HS384"; "HS512"].
Definition asymmetric_algorithms : list string :=
  ["RS256"; "RS384"; "RS512"; "ES256"; "ES256K"; "ES384"; "ES521"; "ES512";
   "PS256"; "PS384"; "PS512"; "EdDSA"].

Definition is_str (j : json) : bool :=
  match j with JStr _ => true | _ => false end.

(** Truthiness of a JSON value. *)
Definition truthy (j : json) : bool :=
  match j with
  | JNull => false
  | JBool b => b
  | JInt n => negb (n =? 0)
  | JStr s => negb (bool_decide (s = ""))
  end.

(** *** encode *)

Definition to_numeric_date (v : pyval) : pyval :=
  match v with
  | PDatetime dt => PJson (JInt (py.timegm dt))
  | _ => v
  end.

Definition convert_time_claims (payload : gmap string pyval) : gmap string pyval :=
  foldr (fun claim p => alter to_numeric_date claim p) payload ["exp"; "iat"; "nbf"].

Definition dumps_value (v : pyval) : option json :=
  match v with
  | PJson j => Some j
  | PDatetime _ => None
  end.

Definition serializable (payload : gmap string pyval) : bool :=
  bool_decide (map_Forall (fun _ v => is_Some (dumps_value v)) payload).

Definition encode (payload : gmap string pyval) (key algorithm : string)
  : py.outcome token :=
  let payload := convert_time_claims payload in
  match payload !! "iss" with
  | Some (PJson (JStr _)) | None =>
      if negb (serializable payload)
      then py.Raise (py.TypeError "Object of type datetime is not JSON serializable")
      else
        let claims := omap dumps_value payload in
        if bool_decide (algorithm ∈ hmac_algorithms)
        then py.Return (Signed algorithm key claims)
        else if bool_decide (algorithm = "none")
        then if bool_decide (key = "")
             then py.Return (Signed algorithm key claims)
             else py.Raise py.InvalidKeyError
        else if bool_decide (algorithm ∈ asymmetric_algorithms)
        then py.Raise py.InvalidKeyError
        else py.Raise (py.NotImplementedError "Algorithm not supported")
  | Some _ => py.Raise (py.TypeError "Issuer (iss) must be a string.")
  end.

(** *** decode *)

Definition invalid {A} (k : py.token_error) : py.outcome A :=
  py.Raise (py.InvalidTokenError k).

(** [int(payload[claim])], where a [ValueError] becomes [on_value_error]. *)
Definition int_claim (on_value_error : py.token_error) (j : json) : py.outcome Z :=
  match j with
  | JInt n => py.Return n
  | JBool b => py.Return (if b then 1 else 0)
  | JStr s =>
      match py.int_of_str s with
      | py.Return n => py.Return n
      | py.Raise _ => invalid on_value_error
      end
  | JNull => py.Raise (py.TypeError "int() argument must be a string, a bytes-like object or a real number, not 'NoneType'")
  end.

Definition validate_iat (claims : gmap string json) (now : Z) : py.outcome unit :=
  match claims !! "iat" with
  | None => py.Return ()
  | Some j =>
      iat ← int_claim py.InvalidIssuedAtError j;
      if now <? iat * py.second then invalid py.ImmatureSignatureError
      else py.Return ()
  end.

Definition validate_nbf (claims : gmap string json) (now : Z) : py.outcome unit :=
  match claims !! "nbf" with
  | None => py.Return ()
  | Some j =>
      nbf ← int_claim py.DecodeError j;
      if now <? nbf * py.second then invalid py.ImmatureSignatureError
      else py.Return ()
  end.

Definition validate_exp (claims : gmap string json) (now : Z) : py.outcome unit :=
  match claims !! "exp" with
  | None => py.Return ()
  | Some j =>
      exp ← int_claim py.DecodeError j;
      if exp * py.second <=? now then invalid py.ExpiredSignatureError
      else py.Return ()
  end.

(** No audience is passed by the callers: a truthy [aud] claim is refused. *)
Definition validate_aud (claims : gmap string json) : py.outcome unit :=
  match claims !! "aud" with
  | None => py.Return ()
  | Some j => if truthy j then invalid py.InvalidAudienceError else py.Return ()
  end.

Definition validate_str_claim (claim : string) (k : py.token_error)
  (claims : gmap string json) : py.outcome unit :=
  match claims !! claim with
  | None => py.Return ()
  | Some j => if is_str j then py.Return () else invalid k
  end.

Definition validate_claims (claims : gmap string json) (now : Z) : py.outcome unit :=
  _ ← validate_iat claims now;
  _ ← validate_nbf claims now;
  _ ← validate_exp claims now;
  _ ← validate_aud claims;
  _ ← validate_str_claim "sub" py.InvalidSubjectError claims;
  validate_str_claim "jti" py.InvalidJTIError claims.

(** [jwt.decode(token, key, algorithms=algorithms)] at clock reading [now]. *)
Definition decode (tok : token) (key : string) (algorithms : list string) (now : Z)
  : py.outcome (gmap string json) :=
  match tok with
  | Garbage _ => invalid py.DecodeError
  | Signed alg signing_key claims =>
      if bool_decide (alg = "") || negb (bool_decide (alg ∈ algorithms))
      then invalid py.InvalidAlgorithmError
      else if bool_decide (alg ∈ hmac_algorithms)
      then
        if negb (bool_decide (signing_key = key))
        then invalid py.InvalidSignatureError
        else _ ← validate_claims claims now; py.Return claims
      else if bool_decide (alg = "none")
      then if bool_decide (key = "")
           then invalid py.InvalidSignatureError
           else py.Raise py.InvalidKeyError
      else if bool_decide (alg ∈ asymmetric_algorithms)
      then py.Raise py.InvalidKeyError
      else invalid py.InvalidAlgorithmError
  end.

End jwt.

(** ** bcrypt (pyca/bcrypt 4.0 and later), by its digest layout

    A salt as returned by [bcrypt.gensalt()] is a 29-character setting:
    [$2b$12$] followed by the 22 characters that encode 16 random bytes in
    the bcrypt alphabet; a digest is the setting followed by the encoded
    hash.  The model takes the settings of that layout (version [2a],
    [2b], [2x] or [2y], a cost of two digits between 04 and 31).  The key
    derivation reads at most 72 bytes of the password; what it computes
    from them (Blowfish, at the cost of the setting) is the parameter
    [kdf]. *)

Module bcrypt.

Definition code (c : ascii) : Z := Z.of_N (N_of_ascii c).

Definition alphabet_char (c : ascii) : bool :=
  let n := code c in
  (n =? 46) || (n =? 47) || ((48 <=? n) && (n <=? 57))
  || ((65 <=? n) && (n <=? 90)) || ((97 <=? n) && (n <=? 122)).

Definition version_char (c : ascii) : bool :=
  let n := code c in (n =? 97) || (n =? 98) || (n =? 120) || (n =? 121).

(** The 22 characters carry 132 bits for the 128 of the salt: the last
    one must leave the four spare bits zero, which only [.], [O], [e] and
    [u] do (the values 0, 16, 32 and 48 of the alphabet). *)
Definition final_salt_char (c : ascii) : bool :=
  let n := code c in (n =? 46) || (n =? 79) || (n =? 101) || (n =? 117).

Definition valid_setting (s : string) : bool :=
  match list_ascii_of_string s with
  | d1 :: two :: v :: d2 :: c1 :: c2 :: d3 :: salt =>
      (code d1 =? 36) && (code two =? 50) && version_char v && (code d2 =? 36)
      && py.is_digit (code c1) && py.is_digit (code c2)
      && (4 <=? 10 * (code c1 - 48) + (code c2 - 48))
      && (10 * (code c1 - 48) + (code c2 - 48) <=? 31)
      && (code d3 =? 36)
      && (length salt =? 22)%nat && forallb alphabet_char salt
      && match rev salt with
         | c :: _ => final_salt_char c
         | [] => false
         end
  | _ => false
  end.

(** The number of bytes of the password that reach the key derivation. *)
Definition password_bytes : nat := 72.

Section WithKdf.
(** [err_on_truncation] tells the versions apart: bcrypt 5.0 and later
    refuse a password of more than 72 bytes, the versions before keep its
    first 72 bytes and go on. *)
Variable err_on_truncation : bool.
Variable kdf : string -> string -> string.

(** [bcrypt.hashpw(password, salt)]: [salt] is a setting or a digest,
    of which the first 29 characters are the setting. *)
Definition hashpw (password salt : string) : py.outcome string :=
  if err_on_truncation && (password_bytes <? String.length password)%nat
  then py.Raise (py.ValueError
         "password cannot be longer than 72 bytes, truncate manually if necessary (e.g. my_password[:72])")
  else
    let password := substring 0 password_bytes password in
    let setting := substring 0 29 salt in
    if valid_setting setting then py.Return (setting ++ kdf setting password)
    else py.Raise (py.ValueError "Invalid salt").

(** [bcrypt.checkpw(password, hashed_password)] *)
Definition checkpw (password hashed_password : string) : py.outcome bool :=
  ret ← hashpw password hashed_password;
  py.Return (bool_decide (ret = hashed_password)).
End WithKdf.

End bcrypt.

(** ** app/auth.py *)

Module auth.

(** The module-level constants, read from the environment at import. *)
Record globals := {
  SECRET_KEY : string;
  ALGORITHM : string;
  ACCESS_TOKEN_EXPIRE_MINUTES : Z;
  PASSWORD_SALT : string
}.

Definition load (environ : gmap string string) : py.outcome globals :=
  let secret_key := os.getenv environ "SECRET_KEY" "your-secret-key-change-in-production" in
  let algorithm := os.getenv environ "ALGORITHM" "HS256" in
  expire_minutes ←
    match environ !! "ACCESS_TOKEN_EXPIRE_MINUTES" with
    | Some v => py.int_of_str v
    | None => py.Return 30
    end;
  let password_salt := os.getenv environ "PASSWORD_SALT" "hr_system_salt_2024" in
  py.Return {| SECRET_KEY := secret_key; ALGORITHM := algorithm;
               ACCESS_TOKEN_EXPIRE_MINUTES := expire_minutes;
               PASSWORD_SALT := password_salt |}.

Record TokenData := { username : string }.

Section WithGlobals.
Variable g : globals.

Definition get_password_hash (password : string) : string :=
  hashlib.sha256_hexdigest (password ++ PASSWORD_SALT g).

Definition verify_password (plain_password hashed_password : string)
  : py.outcome bool :=
  let test_hash := get_password_hash plain_password in
  py.compare_digest test_hash hashed_password.

(** [utcnow] is the reading of [datetime.utcnow()] during the call; a
    [timedelta] is falsy exactly when it is zero. *)
Definition create_access_token (utcnow : Z) (data : gmap string jwt.pyval)
  (expires_delta : option Z) : py.outcome jwt.token :=
  let to_encode := data in
  expire ←
    match expires_delta with
    | Some delta =>
        if negb (delta =? 0) then py.datetime_add utcnow delta
        else delta ← py.timedelta_of_minutes (ACCESS_TOKEN_EXPIRE_MINUTES g);
             py.datetime_add utcnow delta
    | None =>
        delta ← py.timedelta_of_minutes (ACCESS_TOKEN_EXPIRE_MINUTES g);
        py.datetime_add utcnow delta
    end;
  let to_encode := <["exp" := jwt.PDatetime expire]> to_encode in
  jwt.encode to_encode (SECRET_KEY g) (ALGORITHM g).

Definition credentials_exception : py.HTTPException :=
  py.mkHTTP 401 "Could not validate credentials" [("WWW-Authenticate", "Bearer")].

Definition expired_exception : py.HTTPException :=
  py.mkHTTP 401 "Token has expired" [].

(** The two [except] clauses, in their order. *)
Definition handle_jwt_errors {A} (body : py.outcome A) : py.outcome A :=
  match body with
  | py.Raise (py.InvalidTokenError py.ExpiredSignatureError) =>
      py.Raise (py.HTTP expired_exception)
  | py.Raise (py.InvalidTokenError _) =>
      py.Raise (py.HTTP credentials_exception)
  | _ => body
  end.

Definition verify_token (now : Z) (token : jwt.token) : py.outcome TokenData :=
  handle_jwt_errors (
    payload ← jwt.decode token (SECRET_KEY g) [ALGORITHM g] now;
    match payload !! "sub" with
    | None | Some jwt.JNull => py.Raise (py.HTTP credentials_exception)
    | Some (jwt.JStr username) => py.Return {| username := username |}
    | Some _ => py.Raise py.ValidationError
    end).
End WithGlobals.

End auth.

(** ** app/crud.py (the hashing functions) *)

Module crud.

Section WithKdf.
Variable err_on_truncation : bool.
Variable kdf : string -> string -> string.

(** [salt] is the value that [bcrypt.gensalt()] returns in this call. *)
Definition hash_password (salt : string) (password : string) : py.outcome string :=
  bcrypt.hashpw err_on_truncation kdf password salt.

Definition verify_password (plain_password hashed_password : string)
  : py.outcome bool :=
  bcrypt.checkpw err_on_truncation kdf plain_password hashed_password.
End WithKdf.

End crud.

(** ** app/main.py (access control and login) *)

Module main.

Record globals := {
  SECRET_KEY : string;
  ALGORITHM : string;
  ACCESS_TOKEN_EXPIRE_MINUTES : Z
}.

Definition load (environ : gmap string string) : py.outcome globals :=
  let secret_key := os.getenv environ "SECRET_KEY" "your-secret-key-change-in-production" in
  let algorithm := os.getenv environ "ALGORITHM" "HS256" in
  expire_minutes ←
    match environ !! "ACCESS_TOKEN_EXPIRE_MINUTES" with
    | Some v => py.int_of_str v
    | None => py.Return 30
    end;
  py.Return {| SECRET_KEY := secret_key; ALGORITHM := algorithm;
               ACCESS_TOKEN_EXPIRE_MINUTES := expire_minutes |}.

(** A row of the [users] table (app/models.py); the two flags are
    nullable Boolean columns. *)
Record User := {
  id : Z;
  email : string;
  username : string;
  hashed_password : string;
  full_name : option string;
  is_active : option bool;
  is_hr : option bool
}.

(** [select(User).where(User.username == value)] over the table. *)
Definition select_by_username (db : list User) (value : jwt.json) : list User :=
  filter (fun u => jwt.JStr (username u) = value) db.

Definition scalar_one_or_none (rows : list User) : py.outcome (option User) :=
  match rows with
  | [] => py.Return None
  | [u] => py.Return (Some u)
  | _ => py.Raise py.MultipleResultsFound
  end.

Definition not_authenticated : py.HTTPException :=
  py.mkHTTP 401 "Not authenticated" [("WWW-Authenticate", "Bearer")].
Definition credentials_exception : py.HTTPException :=
  py.mkHTTP 401 "Could not validate credentials" [("WWW-Authenticate", "Bearer")].
Definition expired_exception : py.HTTPException :=
  py.mkHTTP 401 "Token has expired" [].
Definition user_not_found : py.HTTPException :=
  py.mkHTTP 401 "User not found" [].
Definition inactive_user : py.HTTPException :=
  py.mkHTTP 400 "Inactive user" [].
Definition hr_required : py.HTTPException :=
  py.mkHTTP 403 "HR privileges required" [].
Definition incorrect_login : py.HTTPException :=
  py.mkHTTP 401 "Incorrect username or password" [("WWW-Authenticate", "Bearer")].

Definition handle_jwt_errors {A} (body : py.outcome A) : py.outcome A :=
  match body with
  | py.Raise (py.InvalidTokenError py.ExpiredSignatureError) =>
      py.Raise (py.HTTP expired_exception)
  | py.Raise (py.InvalidTokenError _) =>
      py.Raise (py.HTTP credentials_exception)
  | _ => body
  end.

Section WithGlobals.
Variable g : globals.

(** [credentials] is what [HTTPBearer(auto_error=False)] extracted:
    [None] without a bearer credential, the token otherwise. *)
Definition get_current_user (db : list User) (now : Z)
  (credentials : option jwt.token) : py.outcome User :=
  match credentials with
  | None => py.Raise (py.HTTP not_authenticated)
  | Some token =>
      username ← handle_jwt_errors (
        payload ← jwt.decode token (SECRET_KEY g) [ALGORITHM g] now;
        match payload !! "sub" with
        | None | Some jwt.JNull => py.Raise (py.HTTP credentials_exception)
        | Some username => py.Return username
        end);
      user ← scalar_one_or_none (select_by_username db username);
      match user with
      | None => py.Raise (py.HTTP user_not_found)
      | Some user =>
          if negb (py.truthy (is_active user))
          then py.Raise (py.HTTP inactive_user)
          else py.Return user
      end
  end.

(** The role check receives what [Depends(get_current_user)] returned. *)
Definition require_hr (current_user : User) : py.outcome User :=
  if negb (py.truthy (is_hr current_user))
  then py.Raise (py.HTTP hr_required)
  else py.Return current_user.

Definition get_current_hr_user (db : list User) (now : Z)
  (credentials : option jwt.token) : py.outcome User :=
  current_user ← get_current_user db now credentials;
  require_hr current_user.
End WithGlobals.

Record UserLogin := { login_username : string; login_password : string }.
Record Token := { access_token : jwt.token; token_type : string }.

(** [login] calls [verify_password] and [create_access_token] of
    app/auth.py, hence with that module's constants. *)
Definition login (a : auth.globals) (db : list User) (utcnow : Z)
  (form_data : UserLogin) : py.outcome Token :=
  user ← scalar_one_or_none
           (select_by_username db (jwt.JStr (login_username form_data)));
  match user with
  | None => py.Raise (py.HTTP incorrect_login)
  | Some user =>
      ok ← auth.verify_password a (login_password form_data) (hashed_password user);
      if negb ok then py.Raise (py.HTTP incorrect_login)
      else if negb (py.truthy (is_active user))
      then py.Raise (py.HTTP inactive_user)
      else
        access_token_expires ← py.timedelta_of_minutes 30;
        access_token ← auth.create_access_token a utcnow
          {[ "sub" := jwt.PJson (jwt.JStr (username user)) ]}
          (Some access_token_expires);
        py.Return {| access_token := access_token; token_type := "bearer" |}
  end.

(** The routes of the application and what each one depends on. *)
Inductive endpoint :=
| root | register_ep | login_ep | read_users_me
| create_candidate | read_candidates | read_candidate
| update_candidate | delete_candidate
| create_vacancy | read_vacancies | read_vacancy
| update_vacancy | delete_vacancy.

Inductive dependency := NoUser | CurrentUser | CurrentHrUser.

Definition depends (e : endpoint) : dependency :=
  match e with
  | root | register_ep | login_ep | read_vacancies | read_vacancy => NoUser
  | read_users_me | read_candidates | read_candidate => CurrentUser
  | create_candidate | update_candidate | delete_candidate
  | create_vacancy | update_vacancy | delete_vacancy => CurrentHrUser
  end.

(** The routes whose decorator carries the description that HR rights
    are required. *)
Definition hr_only (e : endpoint) : bool :=
  match e with
  | create_candidate | update_candidate | delete_candidate
  | create_vacancy | update_vacancy | delete_vacancy => true
  | _ => false
  end.

(** What the framework resolves before it calls the handler of [e]. *)
Definition resolve_dependencies (g : globals) (e : endpoint) (db : list User)
  (now : Z) (credentials : option jwt.token) : py.outcome (option User) :=
  match depends e with
  | NoUser => py.Return None
  | CurrentUser => Some <$> get_current_user g db now credentials
  | CurrentHrUser => Some <$> get_current_hr_user g db now credentials
  end.

End main.

(** ** sqlalchemy: the outcome of a handler that writes

    A table is the list of its rows in the order of insertion, as in the
    access guard.  A select is a filter of that list: its parameters are
    taken to be values the driver passes on as they are (a key within the
    integer range of its column, a string the column type can hold), and
    strings compare by their characters. *)

Module sqlalchemy.

(** A value, a Python exception (those of [py.exc]), or a commit that the
    database refuses: an IntegrityError for a violated constraint, a
    DataError or an error of the driver for a value that does not fit its
    column.  Nothing is written in the last two cases, and the application
    handles none of the exceptions of the database. *)
Inductive result (A : Type) :=
| Ok (a : A)
| Raised (e : py.exc)
| CommitFailed.
Arguments Ok {A} a.
Arguments Raised {A} e.
Arguments CommitFailed {A}.

Definition lift {A} (m : py.outcome A) : result A :=
  match m with
  | py.Return a => Ok a
  | py.Raise e => Raised e
  end.

Definition bind {A B} (m : result A) (k : A -> result B) : result B :=
  match m with
  | Ok a => k a
  | Raised e => Raised e
  | CommitFailed => CommitFailed
  end.

(** [result.scalar_one_or_none()] for the rows of any table. *)
Definition scalar_one_or_none {R} (rows : list R) : py.outcome (option R) :=
  match rows with
  | [] => py.Return None
  | [r] => py.Return (Some r)
  | _ => py.Raise py.MultipleResultsFound
  end.

(** [db.add(row); db.commit(); db.refresh(row)] on a table.  [accepts]
    tells whether the database takes the values of the row for the types
    of its columns (a database that enforces the length of a VARCHAR
    refuses a longer string, another one does not); [conflicts] is the
    violation of the primary key or of a unique constraint with a row of
    the table.  A database that silently truncates is not covered. *)
Definition insert {R} (accepts : R -> bool) (conflicts : R -> R -> bool)
  (table : list R) (row : R) : result (R * list R) :=
  if accepts row && negb (existsb (conflicts row) table)
  then Ok (row, (table ++ [row])%list)
  else CommitFailed.

End sqlalchemy.

#[global] Instance result_ret : MRet sqlalchemy.result := @sqlalchemy.Ok.
#[global] Instance result_bind : MBind sqlalchemy.result :=
  fun A B k m => sqlalchemy.bind m k.

(** ** app/models.py (the tables of the candidates) *)

Module models.

Record Candidate := {
  id : Z;
  first_name : string;
  last_name : string;
  email : string;
  phone : option string;
  position : option string;
  status : option string;
  experience_years : option Z;
  resume_url : option string;
  notes : option string;
  recruiter_id : option Z;
  created_at : Z;
  updated_at : option Z
}.

#[global] Instance Candidate_eq_dec : EqDecision Candidate.
Proof. solve_decision. Defined.

Record VacancyApplication := {
  application_id : Z;
  candidate_id : Z;
  vacancy_id : Z;
  application_status : option string;
  cover_letter : option string;
  applied_at : Z;
  application_notes : option string
}.

End models.

(** ** app/main.py (register, the handlers of the candidates, the
    exception handlers)

    A handler takes the tables it reads, what the database supplies during
    the commit (the new primary key, the time of [func.now()]), and the
    validated body of the request; it returns what it hands to the
    framework together with the table after the commit. *)

Module handlers.

(** The validated bodies (app/schemas.py). *)
Record UserCreate := {
  create_email : string;
  create_username : string;
  create_full_name : option string;
  create_is_hr : bool;
  create_password : string
}.

Record CandidateCreate := {
  new_first_name : string;
  new_last_name : string;
  new_email : string;
  new_phone : option string;
  new_position : string;
  new_status : string;
  new_experience_years : Z;
  new_resume_url : option string;
  new_notes : option string
}.

(** A field of [CandidateUpdate] is unset ([None]), set to null
    ([Some None]) or set to a value; [model_dump(exclude_unset=True)]
    keeps the last two. *)
Record CandidateUpdate := {
  set_first_name : option (option string);
  set_last_name : option (option string);
  set_phone : option (option string);
  set_position : option (option string);
  set_status : option (option string);
  set_experience_years : option (option Z);
  set_resume_url : option (option string);
  set_notes : option (option string)
}.

Definition already_registered : py.HTTPException :=
  py.mkHTTP 400 "Email or username already registered" [].
Definition candidate_exists : py.HTTPException :=
  py.mkHTTP 400 "Candidate with this email already exists" [].
Definition candidate_not_found : py.HTTPException :=
  py.mkHTTP 404 "Candidate not found" [].

(** Primary key [id], unique [email], unique [username]. *)
Definition user_conflicts (row existing : main.User) : bool :=
  bool_decide (main.id existing = main.id row)
  || bool_decide (main.email existing = main.email row)
  || bool_decide (main.username existing = main.username row).

(** Primary key [id], unique [email]. *)
Definition candidate_conflicts (row existing : models.Candidate) : bool :=
  bool_decide (models.id existing = models.id row)
  || bool_decide (models.email existing = models.email row).

(** [select(Candidate).where(Candidate.id == candidate_id)] *)
Definition select_candidate (candidates : list models.Candidate) (candidate_id : Z)
  : list models.Candidate :=
  filter (fun c => models.id c = candidate_id) candidates.

Section WithDatabase.
Variable accepts_user : main.User -> bool.
Variable accepts_candidate : models.Candidate -> bool.

(** [register]: [is_active] is not set and takes the default of its
    column. *)
Definition register (a : auth.globals) (users : list main.User) (new_id : Z)
  (user_data : UserCreate) : sqlalchemy.result (main.User * list main.User) :=
  existing_user ← sqlalchemy.lift (main.scalar_one_or_none
    (filter (fun u => main.email u = create_email user_data
                      \/ main.username u = create_username user_data) users));
  match existing_user with
  | Some _ => sqlalchemy.Raised (py.HTTP already_registered)
  | None =>
      let hashed_password := auth.get_password_hash a (create_password user_data) in
      let db_user :=
        {| main.id := new_id;
           main.email := create_email user_data;
           main.username := create_username user_data;
           main.hashed_password := hashed_password;
           main.full_name := create_full_name user_data;
           main.is_active := Some true;
           main.is_hr := Some (create_is_hr user_data) |} in
      sqlalchemy.insert accepts_user user_conflicts users db_user
  end.

Definition create_candidate (g : main.globals) (users : list main.User)
  (candidates : list models.Candidate) (now : Z)
  (credentials : option jwt.token) (new_id db_now : Z)
  (candidate : CandidateCreate)
  : sqlalchemy.result (models.Candidate * list models.Candidate) :=
  current_user ← sqlalchemy.lift (main.get_current_hr_user g users now credentials);
  existing_candidate ← sqlalchemy.lift (sqlalchemy.scalar_one_or_none
    (filter (fun c => models.email c = new_email candidate) candidates));
  match existing_candidate with
  | Some _ => sqlalchemy.Raised (py.HTTP candidate_exists)
  | None =>
      let db_candidate :=
        {| models.id := new_id;
           models.first_name := new_first_name candidate;
           models.last_name := new_last_name candidate;
           models.email := new_email candidate;
           models.phone := new_phone candidate;
           models.position := Some (new_position candidate);
           models.status := Some (new_status candidate);
           models.experience_years := Some (new_experience_years candidate);
           models.resume_url := new_resume_url candidate;
           models.notes := new_notes candidate;
           models.recruiter_id := Some (main.id current_user);
           models.created_at := db_now;
           models.updated_at := None |} in
      sqlalchemy.insert accepts_candidate candidate_conflicts candidates db_candidate
  end.

Definition read_candidate (g : main.globals) (users : list main.User)
  (candidates : list models.Candidate) (now : Z)
  (credentials : option jwt.token) (candidate_id : Z)
  : py.outcome models.Candidate :=
  current_user ← main.get_current_user g users now credentials;
  candidate ← sqlalchemy.scalar_one_or_none (select_candidate candidates candidate_id);
  match candidate with
  | None => py.Raise (py.HTTP candidate_not_found)
  | Some candidate => py.Return candidate
  end.

(** [update_candidate]: the loop of [setattr], then the commit.  The
    unit of work writes the columns whose value has changed, and nothing
    when none has; with the UPDATE goes [onupdate=func.now()] of
    [updated_at].  A null in a column declared [nullable=False] is
    refused by the database. *)
Definition update_candidate (g : main.globals) (users : list main.User)
  (candidates : list models.Candidate) (now : Z)
  (credentials : option jwt.token) (db_now : Z) (candidate_id : Z)
  (candidate_update : CandidateUpdate)
  : sqlalchemy.result (models.Candidate * list models.Candidate) :=
  current_user ← sqlalchemy.lift (main.get_current_hr_user g users now credentials);
  db_candidate ← sqlalchemy.lift (sqlalchemy.scalar_one_or_none
    (select_candidate candidates candidate_id));
  match db_candidate with
  | None => sqlalchemy.Raised (py.HTTP candidate_not_found)
  | Some db_candidate =>
      match default (Some (models.first_name db_candidate))
                    (set_first_name candidate_update),
            default (Some (models.last_name db_candidate))
                    (set_last_name candidate_update) with
      | Some first_name, Some last_name =>
          let assigned (updated_at : option Z) :=
            {| models.id := models.id db_candidate;
               models.first_name := first_name;
               models.last_name := last_name;
               models.email := models.email db_candidate;
               models.phone :=
                 default (models.phone db_candidate) (set_phone candidate_update);
               models.position :=
                 default (models.position db_candidate) (set_position candidate_update);
               models.status :=
                 default (models.status db_candidate) (set_status candidate_update);
               models.experience_years :=
                 default (models.experience_years db_candidate)
                         (set_experience_years candidate_update);
               models.resume_url :=
                 default (models.resume_url db_candidate)
                         (set_resume_url candidate_update);
               models.notes :=
                 default (models.notes db_candidate) (set_notes candidate_update);
               models.recruiter_id := models.recruiter_id db_candidate;
               models.created_at := models.created_at db_candidate;
               models.updated_at := updated_at |} in
          if bool_decide (assigned (models.updated_at db_candidate) = db_candidate)
          then sqlalchemy.Ok (db_candidate, candidates)
          else
            let row := assigned (Some db_now) in
            if accepts_candidate row
            then sqlalchemy.Ok
                   (row, map (fun c => if bool_decide (models.id c = models.id row)
                                       then row else c) candidates)
            else sqlalchemy.CommitFailed
      | _, _ => sqlalchemy.CommitFailed
      end
  end.

(** [delete_candidate]: the relationship [applications] has no delete
    cascade, so the unit of work sets [candidate_id] of the candidate's
    applications to null, which that column ([nullable=False]) refuses. *)
Definition delete_candidate (g : main.globals) (users : list main.User)
  (candidates : list models.Candidate)
  (applications : list models.VacancyApplication) (now : Z)
  (credentials : option jwt.token) (candidate_id : Z)
  : sqlalchemy.result (unit * list models.Candidate) :=
  current_user ← sqlalchemy.lift (main.get_current_hr_user g users now credentials);
  db_candidate ← sqlalchemy.lift (sqlalchemy.scalar_one_or_none
    (select_candidate candidates candidate_id));
  match db_candidate with
  | None => sqlalchemy.Raised (py.HTTP candidate_not_found)
  | Some db_candidate =>
      if existsb (fun application =>
                    bool_decide (models.candidate_id application
                                 = models.id db_candidate)) applications
      then sqlalchemy.CommitFailed
      else sqlalchemy.Ok
             ((), filter (fun c => models.id c <> models.id db_candidate) candidates)
  end.
End WithDatabase.

(** *** What the client receives for an exception

    A JSON body [{"detail": ...}], a response without body, or the 500
    of the server for an exception that no handler takes. *)
Inductive error_response :=
| JSONResponse (status_code : Z) (detail : string) (headers : list (string * string))
| Response (status_code : Z) (headers : list (string * string))
| InternalServerError.

(** [@app.exception_handler(404)] *)
Definition not_found_exception_handler (exc : py.HTTPException) : error_response :=
  JSONResponse 404 "Resource not found" [].

(** The handler that the framework installs for [HTTPException]. *)
Definition http_exception_handler (exc : py.HTTPException) : error_response :=
  let status := py.status_code exc in
  if (status <? 200) || bool_decide (status ∈ [204; 205; 304])
  then Response status (py.headers exc)
  else JSONResponse status (py.detail exc) (py.headers exc).

(** A handler registered for a status code takes the [HTTPException]s of
    that status before the handler of the class is looked up.  The one
    registered for 422 calls [exc.errors()], which an [HTTPException] does
    not have. *)
Definition exception_response (e : py.exc) : error_response :=
  match e with
  | py.HTTP exc =>
      if py.status_code exc =? 404 then not_found_exception_handler exc
      else if py.status_code exc =? 422 then InternalServerError
      else http_exception_handler exc
  | _ => InternalServerError
  end.

End handlers.

(** ** app/openapi.py (which paths are declared with the bearer scheme) *)

Module openapi.

(** The path of each route, from its decorator in app/main.py. *)
Definition path (e : main.endpoint) : string :=
  match e with
  | main.root => "/"
  | main.register_ep => "/register"
  | main.login_ep => "/login"
  | main.read_users_me => "/users/me"
  | main.create_candidate | main.read_candidates => "/candidates/"
  | main.read_candidate | main.update_candidate | main.delete_candidate =>
      "/candidates/{candidate_id}"
  | main.create_vacancy | main.read_vacancies => "/vacancies/"
  | main.read_vacancy | main.update_vacancy | main.delete_vacancy =>
      "/vacancies/{vacancy_id}"
  end.

(** [p in s] for two [str]. *)
Fixpoint contains (p s : string) : bool :=
  String.prefix p s
  || match s with
     | EmptyString => false
     | String _ s' => contains p s'
     end.

Definition protected_paths : list string :=
  ["/users/me"; "/candidates/"; "/candidates/{candidate_id}";
   "/vacancies/"; "/vacancies/{vacancy_id}"].

(** Whether [custom_openapi] sets [security] on the operations of the
    path of [e]. *)
Definition secured (e : main.endpoint) : bool :=
  existsb (fun p => contains p (path e)) protected_paths.

End openapi.

(** * Vocabulary of the properties *)

(** The default of [os.getenv("SECRET_KEY", ...)] in both modules. *)
Definition fallback_secret : string := "your-secret-key-change-in-production".

(** What [int(os.getenv("ACCESS_TOKEN_EXPIRE_MINUTES", 30))] evaluates to. *)
Definition expire_minutes_setting (environ : gmap string string) : py.outcome Z :=
  match environ !! "ACCESS_TOKEN_EXPIRE_MINUTES" with
  | Some v => py.int_of_str v
  | None => py.Return 30
  end.

(** The constants of app/auth.py under an empty environment. *)
Definition default_globals : auth.globals :=
  {| auth.SECRET_KEY := fallback_secret;
     auth.ALGORITHM := "HS256";
     auth.ACCESS_TOKEN_EXPIRE_MINUTES := 30;
     auth.PASSWORD_SALT := "hr_system_salt_2024" |}.

(** A hasher seen as a function of what one call draws from the random
    source and of the secret.  [get_password_hash] draws nothing;
    [crud.hash_password] draws the salt of [bcrypt.gensalt()]. *)
Definition hasher := string -> string -> py.outcome string.

Definition auth_hasher (g : auth.globals) : hasher :=
  fun _ secret => py.Return (auth.get_password_hash g secret).

Definition crud_hasher (err_on_truncation : bool)
  (kdf : string -> string -> string) : hasher :=
  crud.hash_password err_on_truncation kdf.

(** Two calls with different draws give different digests. *)
Definition distinct_per_call (h : hasher) : Prop :=
  forall secret draw1 draw2 d1 d2,
    draw1 <> draw2 ->
    h draw1 secret = py.Return d1 -> h draw2 secret = py.Return d2 -> d1 <> d2.

(** A stand-in key derivation for the examples: any function will do. *)
Definition example_kdf (setting password : string) : string :=
  hashlib.sha256_hexdigest (setting ++ password).

(** Two settings as [bcrypt.gensalt()] returns them, and secrets of 73
    bytes that share their first 72. *)
Definition bcrypt_setting : string := "$2b$12$abcdefghijklmnopqrstuu".
Definition other_bcrypt_setting : string := "$2b$12$ABCDEFGHIJKLMNOPQRSTUO".

Definition long_secret (tail : string) : string :=
  string_of_list_ascii (repeat "a"%char 72) ++ tail.

(** The original round trip, for a hasher given by its two functions:
    every secret verifies against its digest, and no other secret does. *)
Definition round_trips (hash : string -> py.outcome string)
  (verify : string -> string -> py.outcome bool) : Prop :=
  (forall s, exists d, hash s = py.Return d /\ verify s d = py.Return true)
  /\ (forall s1 s2 d,
        s1 <> s2 -> hash s2 = py.Return d -> verify s1 d = py.Return false).

(** The payload that login hands to the issuer, and the claims of the
    token that results. *)
Definition subject_payload (h : string) : gmap string jwt.pyval :=
  {[ "sub" := jwt.PJson (jwt.JStr h) ]}.

Definition subject_claims (h : string) (exp : Z) : gmap string jwt.json :=
  <["exp" := jwt.JInt exp]> {[ "sub" := jwt.JStr h ]}.

(** The registered claims other than the expiry pass the checks of the
    library. *)
Definition well_formed (claims : gmap string jwt.json) (now : Z) : Prop :=
  jwt.validate_iat claims now = py.Return ()
  /\ jwt.validate_nbf claims now = py.Return ()
  /\ jwt.validate_aud claims = py.Return ()
  /\ jwt.validate_str_claim "sub" py.InvalidSubjectError claims = py.Return ()
  /\ jwt.validate_str_claim "jti" py.InvalidJTIError claims = py.Return ().

(** The expiry claim is a number of seconds that [now] has reached. *)
Definition expiry_elapsed (claims : gmap string jwt.json) (now : Z) : Prop :=
  exists j n, claims !! "exp" = Some j
              /\ jwt.int_claim py.DecodeError j = py.Return n
              /\ n * py.second <= now.

(** There is no expiry claim, or it lies ahead of [now]. *)
Definition not_expired (claims : gmap string jwt.json) (now : Z) : Prop :=
  jwt.validate_exp claims now = py.Return ().

(** The two modules read the same variables with the same defaults. *)
Definition same_settings (a : auth.globals) (g : main.globals) : Prop :=
  auth.SECRET_KEY a = main.SECRET_KEY g /\ auth.ALGORITHM a = main.ALGORITHM g.

(** Steps 3 to 5 of the guard: the account of the subject, if active. *)
Definition resolve_account (db : list main.User) (subject : string)
  : py.outcome main.User :=
  user ← main.scalar_one_or_none (main.select_by_username db (jwt.JStr subject));
  match user with
  | None => py.Raise (py.HTTP main.user_not_found)
  | Some user =>
      if negb (py.truthy (main.is_active user))
      then py.Raise (py.HTTP main.inactive_user)
      else py.Return user
  end.

(** The constants of app/main.py under an empty environment, and a table
    with an active account, a deactivated one and an HR account. *)
Definition default_main_globals : main.globals :=
  {| main.SECRET_KEY := fallback_secret;
     main.ALGORITHM := "HS256";
     main.ACCESS_TOKEN_EXPIRE_MINUTES := 30 |}.

Definition example_user (id : Z) (name : string) (active hr : bool) : main.User :=
  {| main.id := id;
     main.email := name ++ "@example.com";
     main.username := name;
     main.hashed_password := auth.get_password_hash default_globals "password123";
     main.full_name := None;
     main.is_active := Some active;
     main.is_hr := Some hr |}.

Definition alice : main.User := example_user 1 "alice" true false.
Definition bob : main.User := example_user 2 "bob" false true.
Definition carol : main.User := example_user 3 "carol" true true.
Definition example_db : list main.User := [alice; bob; carol].

Definition token_for (h : string) (exp : Z) : jwt.token :=
  jwt.Signed "HS256" fallback_secret (subject_claims h exp).

(** The constants of app/auth.py with another default lifetime. *)
Definition with_expire_minutes (m : Z) (a : auth.globals) : auth.globals :=
  {| auth.SECRET_KEY := auth.SECRET_KEY a;
     auth.ALGORITHM := auth.ALGORITHM a;
     auth.ACCESS_TOKEN_EXPIRE_MINUTES := m;
     auth.PASSWORD_SALT := auth.PASSWORD_SALT a |}.

(** What [int(None)] raises inside [jwt.decode], and the payload
    [{"sub": h, "exp": null}]. *)
Definition null_claim_error : py.exc :=
  py.TypeError "int() argument must be a string, a bytes-like object or a real number, not 'NoneType'".

Definition null_expiry_claims (h : string) : gmap string jwt.json :=
  <["exp" := jwt.JNull]> {[ "sub" := jwt.JStr h ]}.

(** ** Vocabulary of the further properties *)

(** A lower-case hexadecimal digit. *)
Definition hex_char (c : ascii) : bool :=
  let n := Z.of_N (N_of_ascii c) in
  ((48 <=? n) && (n <=? 57)) || ((97 <=? n) && (n <=? 102)).

(** The lifetime that the issuer applies: the one given if it is truthy,
    ACCESS_TOKEN_EXPIRE_MINUTES otherwise. *)
Definition applied_lifetime (g : auth.globals) (expires_delta : option Z)
  : py.outcome Z :=
  match expires_delta with
  | Some delta =>
      if negb (delta =? 0) then py.Return delta
      else py.timedelta_of_minutes (auth.ACCESS_TOKEN_EXPIRE_MINUTES g)
  | None => py.timedelta_of_minutes (auth.ACCESS_TOKEN_EXPIRE_MINUTES g)
  end.

(** An account whose digest was written by [crud.hash_password], and one
    whose stored digest is not ASCII. *)
Definition dave : main.User :=
  {| main.id := 4;
     main.email := "dave@example.com";
     main.username := "dave";
     main.hashed_password := bcrypt_setting ++ example_kdf bcrypt_setting "password123";
     main.full_name := None;
     main.is_active := Some true;
     main.is_hr := Some false |}.

Definition erin : main.User :=
  {| main.id := 5;
     main.email := "erin@example.com";
     main.username := "erin";
     main.hashed_password := String (ascii_of_N 233) "";
     main.full_name := None;
     main.is_active := Some true;
     main.is_hr := Some false |}.

(** The constraints of the two tables (app/models.py): the primary key
    and the unique columns hold no value twice. *)
Definition unique_users (users : list main.User) : Prop :=
  NoDup (main.id <$> users)
  /\ NoDup (main.email <$> users)
  /\ NoDup (main.username <$> users).

Definition unique_candidates (candidates : list models.Candidate) : Prop :=
  NoDup (models.id <$> candidates) /\ NoDup (models.email <$> candidates).

(** A database that takes every value, as one that does not enforce the
    length of a VARCHAR does for strings. *)
Definition accepts_all {R} (row : R) : bool := true.

(** A registration that asks for HR rights, and the account it creates
    in the example table. *)
Definition frank_data : handlers.UserCreate :=
  {| handlers.create_email := "frank@example.com";
     handlers.create_username := "frank";
     handlers.create_full_name := Some "Frank";
     handlers.create_is_hr := true;
     handlers.create_password := "password123" |}.

Definition frank : main.User :=
  {| main.id := 6;
     main.email := "frank@example.com";
     main.username := "frank";
     main.hashed_password := auth.get_password_hash default_globals "password123";
     main.full_name := Some "Frank";
     main.is_active := Some true;
     main.is_hr := Some true |}.

(** A candidate as the HR account of the example table creates it. *)
Definition grace_data : handlers.CandidateCreate :=
  {| handlers.new_first_name := "Grace";
     handlers.new_last_name := "Hopper";
     handlers.new_email := "grace@example.com";
     handlers.new_phone := None;
     handlers.new_position := "Engineer";
     handlers.new_status := "new";
     handlers.new_experience_years := 7;
     handlers.new_resume_url := None;
     handlers.new_notes := None |}.

Definition grace : models.Candidate :=
  {| models.id := 1;
     models.first_name := "Grace";
     models.last_name := "Hopper";
     models.email := "grace@example.com";
     models.phone := None;
     models.position := Some "Engineer";
     models.status := Some "new";
     models.experience_years := Some 7;
     models.resume_url := None;
     models.notes := None;
     models.recruiter_id := Some 3;
     models.created_at := 1700000000000000;
     models.updated_at := None |}.

(** An update that sets nothing, and one that sets the status. *)
Definition no_update : handlers.CandidateUpdate :=
  {| handlers.set_first_name := None;
     handlers.set_last_name := None;
     handlers.set_phone := None;
     handlers.set_position := None;
     handlers.set_status := None;
     handlers.set_experience_years := None;
     handlers.set_resume_url := None;
     handlers.set_notes := None |}.

Definition status_update (s : string) : handlers.CandidateUpdate :=
  {| handlers.set_first_name := None;
     handlers.set_last_name := None;
     handlers.set_phone := None;
     handlers.set_position := None;
     handlers.set_status := Some (Some s);
     handlers.set_experience_years := None;
     handlers.set_resume_url := None;
     handlers.set_notes := None |}.

(** The row of a candidate after the update of its status to "hired" at
    1700000060000000, and an update that sets the first name to null. *)
Definition update_row (c : models.Candidate) : models.Candidate :=
  {| models.id := models.id c;
     models.first_name := models.first_name c;
     models.last_name := models.last_name c;
     models.email := models.email c;
     models.phone := models.phone c;
     models.position := models.position c;
     models.status := Some "hired";
     models.experience_years := models.experience_years c;
     models.resume_url := models.resume_url c;
     models.notes := models.notes c;
     models.recruiter_id := models.recruiter_id c;
     models.created_at := models.created_at c;
     models.updated_at := Some 1700000060000000 |}.

Definition null_first_name : handlers.CandidateUpdate :=
  {| handlers.set_first_name := Some None;
     handlers.set_last_name := None;
     handlers.set_phone := None;
     handlers.set_position := None;
     handlers.set_status := None;
     handlers.set_experience_years := None;
     handlers.set_resume_url := None;
     handlers.set_notes := None |}.

(** An application of the example candidate to the vacancy 1. *)
Definition grace_application : models.VacancyApplication :=
  {| models.application_id := 1;
     models.candidate_id := 1;
     models.vacancy_id := 1;
     models.application_status := Some "applied";
     models.cover_letter := None;
     models.applied_at := 1700000030000000;
     models.application_notes := None |}.

(** The exceptions that the guards and the modelled handlers raise. *)
Definition raised_by_handlers : list py.HTTPException :=
  [main.not_authenticated; main.credentials_exception; main.expired_exception;
   main.user_not_found; main.inactive_user; main.hr_required;
   main.incorrect_login; handlers.already_registered; handlers.candidate_exists;
   handlers.candidate_not_found].

(** * Test vectors *)

Example sha256_empty :
  hashlib.sha256_hexdigest "" =
  "e3b0c44298fc1c149afbf4c8996fb92427ae41e4649b934ca495991b7852b855".
Proof. vm_compute. reflexivity. Qed.

Example sha256_abc :
  hashlib.sha256_hexdigest "abc" =
  "ba7816bf8f01cfea414140de5dae2223b00361a396177a9cb410ff61f20015ad".
Proof. vm_compute. reflexivity. Qed.

Example int_of_str_padded : py.int_of_str " 12 " = py.Return 12.
Proof. vm_compute. reflexivity. Qed.

Example int_of_str_underscores : py.int_of_str "1_2_3" = py.Return 123.
Proof. vm_compute. reflexivity. Qed.

Example int_of_str_negative : py.int_of_str "-007" = py.Return (-7).
Proof. vm_compute. reflexivity. Qed.

Example int_of_str_double_underscore :
  py.int_of_str "1__0"
  = py.Raise (py.ValueError "invalid literal for int() with base 10").
Proof. vm_compute. reflexivity. Qed.

Example int_of_str_arabic_indic : py.int_of_str "٣٠" = py.Return 30.
Proof. vm_compute. reflexivity. Qed.

Example int_of_str_no_break_space :
  py.int_of_str (String (ascii_of_N 194) (String (ascii_of_N 160) "7")) = py.Return 7.
Proof. vm_compute. reflexivity. Qed.

Example int_of_str_too_many_digits :
  py.int_of_str (string_of_list_ascii (repeat "1"%char 4301))
  = py.Raise (py.ValueError "Exceeds the limit (4300 digits) for integer string conversion: value has 4301 digits; use sys.set_int_max_str_digits() to increase the limit").
Proof. vm_compute. reflexivity. Qed.

Example int_of_str_sign_only :
  py.int_of_str "+"
  = py.Raise (py.ValueError "invalid literal for int() with base 10").
Proof. vm_compute. reflexivity. Qed.

(** A value of ACCESS_TOKEN_EXPIRE_MINUTES that is not an integer literal
    makes the import fail. *)
Example load_bad_expire_minutes :
  auth.load {[ "ACCESS_TOKEN_EXPIRE_MINUTES" := "thirty" ]}
  = py.Raise (py.ValueError "invalid literal for int() with base 10").
Proof. vm_compute. reflexivity. Qed.

(** Register-free end to end run on the example table: login, then the
    guard, then the role check. *)
Example login_then_guard_alice :
  main.login default_globals example_db 1700000000000000
    {| main.login_username := "alice"; main.login_password := "password123" |}
  = py.Return {| main.access_token := token_for "alice" 1700001800;
                 main.token_type := "bearer" |}
  /\ main.get_current_user default_main_globals example_db 1700000060000000
       (Some (token_for "alice" 1700001800)) = py.Return alice
  /\ main.get_current_hr_user default_main_globals example_db 1700000060000000
       (Some (token_for "alice" 1700001800)) = py.Raise (py.HTTP main.hr_required).
Proof. vm_compute. repeat split; reflexivity. Qed.

(** * Properties *)

(** ** Configuration at import *)

Lemma auth_load_eq environ :
  auth.load environ =
  n ← expire_minutes_setting environ;
  py.Return {| auth.SECRET_KEY := os.getenv environ "SECRET_KEY" fallback_secret;
               auth.ALGORITHM := os.getenv environ "ALGORITHM" "HS256";
               auth.ACCESS_TOKEN_EXPIRE_MINUTES := n;
               auth.PASSWORD_SALT := os.getenv environ "PASSWORD_SALT" "hr_system_salt_2024" |}.
Proof. reflexivity. Qed.

Lemma main_load_eq environ :
  main.load environ =
  n ← expire_minutes_setting environ;
  py.Return {| main.SECRET_KEY := os.getenv environ "SECRET_KEY" fallback_secret;
               main.ALGORITHM := os.getenv environ "ALGORITHM" "HS256";
               main.ACCESS_TOKEN_EXPIRE_MINUTES := n |}.
Proof. reflexivity. Qed.

(** The only way for the import of app/auth.py to fail is a value of
    ACCESS_TOKEN_EXPIRE_MINUTES that [int] refuses. *)
Lemma auth_load_failure environ e :
  auth.load environ = py.Raise e ->
  exists v, environ !! "ACCESS_TOKEN_EXPIRE_MINUTES" = Some v
            /\ py.int_of_str v = py.Raise e.
Proof.
  rewrite auth_load_eq. unfold expire_minutes_setting.
  destruct (environ !! "ACCESS_TOKEN_EXPIRE_MINUTES") as [v|] eqn:Hv; cbn.
  - destruct (py.int_of_str v) eqn:Hi; cbn; [discriminate|].
    intros [= <-]. eauto.
  - discriminate.
Qed.

(** C1, as stated, fails: with an empty environment the import succeeds
    and the signing secret is the string written in the source. *)
Lemma unset_secret_is_not_fatal :
  ~ (forall environ : gmap string string,
       environ !! "SECRET_KEY" = None ->
       exists e, auth.load environ = py.Raise e).
Proof.
  intros H. destruct (H ∅) as [e He]; [reflexivity|].
  vm_compute in He. discriminate.
Qed.

(** C1 (amended): when SECRET_KEY is unset and ACCESS_TOKEN_EXPIRE_MINUTES
    is unset or an integer literal, both modules load, and their signing
    secret is the fallback string of the source. *)
Theorem unset_secret_loads_fallback (environ : gmap string string) (n : Z) :
  environ !! "SECRET_KEY" = None ->
  expire_minutes_setting environ = py.Return n ->
  (exists g, auth.load environ = py.Return g
             /\ auth.SECRET_KEY g = fallback_secret
             /\ auth.ACCESS_TOKEN_EXPIRE_MINUTES g = n)
  /\ (exists g, main.load environ = py.Return g
                /\ main.SECRET_KEY g = fallback_secret
                /\ main.ACCESS_TOKEN_EXPIRE_MINUTES g = n).
Proof.
  intros Hsecret Hn. rewrite auth_load_eq, main_load_eq, Hn. cbn.
  unfold os.getenv. rewrite Hsecret. split; eexists; repeat split.
Qed.

Lemma unset_secret_loads_fallback_witness :
  (exists g, auth.load ∅ = py.Return g
             /\ auth.SECRET_KEY g = fallback_secret
             /\ auth.ACCESS_TOKEN_EXPIRE_MINUTES g = 30)
  /\ (exists g, main.load ∅ = py.Return g
                /\ main.SECRET_KEY g = fallback_secret
                /\ main.ACCESS_TOKEN_EXPIRE_MINUTES g = 30).
Proof.
  apply (unset_secret_loads_fallback ∅ 30); reflexivity.
Defined.

(** ** The credential hasher *)

Lemma hex_digit_ascii n :
  0 <= n < 16 -> Z.of_N (N_of_ascii (hashlib.hex_digit n)) < 128.
Proof.
  intros Hn. unfold hashlib.hex_digit.
  destruct (n <? 10); rewrite N_ascii_embedding by lia; lia.
Qed.

Lemma is_ascii_cons c s :
  py.is_ascii (String c s) = (Z.of_N (N_of_ascii c) <? 128) && py.is_ascii s.
Proof. reflexivity. Qed.

Lemma hex_is_ascii bs : py.is_ascii (hashlib.hex bs) = true.
Proof.
  induction bs as [|b bs IH]; [reflexivity|].
  cbn [hashlib.hex]. rewrite !is_ascii_cons, IH.
  assert (Z.of_N (N_of_ascii (hashlib.hex_digit (b / 16 mod 16))) < 128)
    by (apply hex_digit_ascii, Z.mod_pos_bound; lia).
  assert (Z.of_N (N_of_ascii (hashlib.hex_digit (b mod 16))) < 128)
    by (apply hex_digit_ascii, Z.mod_pos_bound; lia).
  repeat (apply andb_true_intro; split); try apply Z.ltb_lt; auto.
Qed.

Lemma get_password_hash_ascii g password :
  py.is_ascii (auth.get_password_hash g password) = true.
Proof. apply hex_is_ascii. Qed.

(** [verify_password] compares the digest of the candidate with a stored
    digest produced by [get_password_hash]. *)
Lemma verify_password_against_hash g s1 s2 :
  auth.verify_password g s1 (auth.get_password_hash g s2) =
  py.Return (bool_decide (auth.get_password_hash g s1 = auth.get_password_hash g s2)).
Proof.
  unfold auth.verify_password, py.compare_digest.
  rewrite !get_password_hash_ascii. reflexivity.
Qed.

Lemma string_app_nil (t : string) : ("" ++ t)%string = t.
Proof. reflexivity. Qed.

Lemma string_app_cons c (s t : string) :
  (String c s ++ t)%string = String c (s ++ t).
Proof. reflexivity. Qed.

Lemma string_app_inj_length (s1 s2 t1 t2 : string) :
  String.length s1 = String.length s2 ->
  (s1 ++ t1 = s2 ++ t2)%string -> s1 = s2 /\ t1 = t2.
Proof.
  revert s2. induction s1 as [|c s1 IH]; intros [|d s2] Hlen;
    try discriminate Hlen; rewrite ?string_app_nil, ?string_app_cons.
  - auto.
  - injection Hlen as Hlen. intros [= -> Happ].
    destruct (IH _ Hlen Happ) as [-> ->]. auto.
Qed.

Lemma substring_all n (s : string) :
  String.length s = n -> substring 0 n s = s.
Proof.
  revert n. induction s as [|c s IH]; intros [|n]; cbn; try discriminate; auto.
  intros [= Hn]. now rewrite (IH _ Hn).
Qed.

Lemma substring_prefix n (s t : string) :
  String.length s = n -> substring 0 n (s ++ t) = s.
Proof.
  revert n. induction s as [|c s IH]; intros [|n] Hlen;
    try discriminate Hlen; rewrite ?string_app_nil, ?string_app_cons.
  - destruct t; reflexivity.
  - injection Hlen as Hlen. cbn. now rewrite (IH _ Hlen).
Qed.

Lemma length_string_of_list_ascii (l : list ascii) :
  String.length (string_of_list_ascii l) = length l.
Proof. induction l as [|c l IH]; cbn; [reflexivity | now rewrite IH]. Qed.

Lemma substring_short n (s : string) :
  (String.length s <= n)%nat -> substring 0 n s = s.
Proof.
  revert n. induction s as [|c s IH]; intros [|n] Hlen; cbn in *;
    try reflexivity; try lia.
  rewrite IH by lia. reflexivity.
Qed.

Lemma valid_setting_length s :
  bcrypt.valid_setting s = true -> String.length s = 29%nat.
Proof.
  unfold bcrypt.valid_setting.
  rewrite <- (string_of_list_ascii_of_string s) at 2.
  destruct (list_ascii_of_string s) as [|c1 [|c2 [|c3 [|c4 [|c5 [|c6 [|c7 l]]]]]]];
    try discriminate.
  intros H. repeat (apply andb_prop in H as [H ?]).
  match goal with Hl : (length l =? 22)%nat = true |- _ =>
    apply Nat.eqb_eq in Hl end.
  cbn. rewrite length_string_of_list_ascii. lia.
Qed.

Section BcryptFacts.
Variable err_on_truncation : bool.
Variable kdf : string -> string -> string.

(** With a setting or a digest as salt, and a password that is not
    refused, [hashpw] returns the setting followed by the hash of the
    first 72 bytes. *)
Lemma hashpw_digest password salt rest :
  bcrypt.valid_setting salt = true ->
  err_on_truncation && (bcrypt.password_bytes <? String.length password)%nat = false ->
  bcrypt.hashpw err_on_truncation kdf password (salt ++ rest) =
  py.Return (salt ++ kdf salt (substring 0 bcrypt.password_bytes password))%string.
Proof.
  intros Hv Hlen. unfold bcrypt.hashpw. rewrite Hlen.
  rewrite (substring_prefix 29 salt rest (valid_setting_length _ Hv)), Hv.
  reflexivity.
Qed.

Lemma hashpw_setting password salt :
  bcrypt.valid_setting salt = true ->
  err_on_truncation && (bcrypt.password_bytes <? String.length password)%nat = false ->
  bcrypt.hashpw err_on_truncation kdf password salt =
  py.Return (salt ++ kdf salt (substring 0 bcrypt.password_bytes password))%string.
Proof.
  intros Hv Hlen. unfold bcrypt.hashpw. rewrite Hlen.
  rewrite (substring_all 29 salt (valid_setting_length _ Hv)), Hv. reflexivity.
Qed.

Lemma checkpw_against_hash salt password hash :
  bcrypt.valid_setting salt = true ->
  err_on_truncation && (bcrypt.password_bytes <? String.length password)%nat = false ->
  bcrypt.checkpw err_on_truncation kdf password (salt ++ hash) =
  py.Return (bool_decide
               (kdf salt (substring 0 bcrypt.password_bytes password) = hash)).
Proof.
  intros Hv Hlen. unfold bcrypt.checkpw. rewrite (hashpw_digest _ _ _ Hv Hlen). cbn.
  f_equal. apply bool_decide_ext. split.
  - intros H. apply string_app_inj_length in H as [_ H]; auto.
  - now intros ->.
Qed.

Lemma short_password_accepted password :
  (String.length password <= bcrypt.password_bytes)%nat ->
  err_on_truncation && (bcrypt.password_bytes <? String.length password)%nat = false.
Proof.
  intros Hlen. apply andb_false_iff. right. apply Nat.ltb_ge. exact Hlen.
Qed.
End BcryptFacts.

Lemma load_empty_environment : auth.load ∅ = py.Return default_globals.
Proof. reflexivity. Qed.

Example default_hash_of_password123 :
  auth.get_password_hash default_globals "password123" =
  "51e641c0382af4c69c186a768fb5cf8027e94e385ba7fc97e975add07723c033".
Proof. vm_compute. reflexivity. Qed.

(** C2, as stated, fails for the hasher of app/auth.py, the one that
    register and login use: every call on a secret returns the same digest. *)
Lemma static_salt_repeats_digest :
  ~ distinct_per_call (auth_hasher default_globals).
Proof.
  intros H.
  eapply (H "password123" "first call" "second call");
    [discriminate | reflexivity | reflexivity | reflexivity].
Qed.

(** C2 (amended): [auth.get_password_hash] is a function of the secret and
    of the one process-wide PASSWORD_SALT, so two calls on a secret return
    the same digest, which verifies; [crud.hash_password] embeds the salt
    of the call, so for a secret of at most 72 bytes calls with different
    salts return different digests, and both verify against the secret. *)
Theorem hasher_salting (g : auth.globals) (err_on_truncation : bool)
  (kdf : string -> string -> string) (secret salt1 salt2 : string) :
  bcrypt.valid_setting salt1 = true ->
  bcrypt.valid_setting salt2 = true ->
  salt1 <> salt2 ->
  (String.length secret <= bcrypt.password_bytes)%nat ->
  (forall draw1 draw2, auth_hasher g draw1 secret = auth_hasher g draw2 secret)
  /\ auth.get_password_hash g secret
     = hashlib.sha256_hexdigest (secret ++ auth.PASSWORD_SALT g)
  /\ auth.verify_password g secret (auth.get_password_hash g secret) = py.Return true
  /\ exists d1 d2,
       crud_hasher err_on_truncation kdf salt1 secret = py.Return d1
       /\ crud_hasher err_on_truncation kdf salt2 secret = py.Return d2
       /\ d1 <> d2
       /\ crud.verify_password err_on_truncation kdf secret d1 = py.Return true
       /\ crud.verify_password err_on_truncation kdf secret d2 = py.Return true.
Proof.
  intros Hv1 Hv2 Hne Hlen.
  pose proof (short_password_accepted err_on_truncation secret Hlen) as Hok.
  repeat split.
  - rewrite verify_password_against_hash. now rewrite bool_decide_eq_true_2.
  - exists (salt1 ++ kdf salt1 (substring 0 bcrypt.password_bytes secret))%string,
           (salt2 ++ kdf salt2 (substring 0 bcrypt.password_bytes secret))%string.
    unfold crud_hasher, crud.hash_password, crud.verify_password.
    rewrite !hashpw_setting, !checkpw_against_hash by assumption.
    rewrite !bool_decide_eq_true_2 by reflexivity.
    repeat split.
    intros Heq. apply string_app_inj_length in Heq as [Heq _]; [auto|].
    now rewrite !(valid_setting_length _ Hv1), !(valid_setting_length _ Hv2).
Qed.

Lemma hasher_salting_witness :
  (forall draw1 draw2,
     auth_hasher default_globals draw1 "password123"
     = auth_hasher default_globals draw2 "password123")
  /\ auth.get_password_hash default_globals "password123"
     = hashlib.sha256_hexdigest ("password123" ++ "hr_system_salt_2024")
  /\ auth.verify_password default_globals "password123"
       (auth.get_password_hash default_globals "password123") = py.Return true
  /\ exists d1 d2,
       crud_hasher true example_kdf bcrypt_setting "password123" = py.Return d1
       /\ crud_hasher true example_kdf other_bcrypt_setting "password123" = py.Return d2
       /\ d1 <> d2
       /\ crud.verify_password true example_kdf "password123" d1 = py.Return true
       /\ crud.verify_password true example_kdf "password123" d2 = py.Return true.
Proof.
  apply (hasher_salting default_globals true example_kdf "password123"
           bcrypt_setting other_bcrypt_setting);
    [reflexivity | reflexivity | discriminate | vm_compute; lia].
Defined.

(** *** Hash, then verify *)

Lemma hex_digit_inj m n :
  0 <= m < 16 -> 0 <= n < 16 ->
  hashlib.hex_digit m = hashlib.hex_digit n -> m = n.
Proof.
  intros Hm Hn Heq. apply (f_equal N_of_ascii) in Heq. revert Heq.
  unfold hashlib.hex_digit.
  destruct (Z.ltb_spec m 10), (Z.ltb_spec n 10);
    rewrite !N_ascii_embedding by lia; lia.
Qed.

Lemma hex_inj bs1 bs2 :
  Forall (fun b => 0 <= b < 256) bs1 -> Forall (fun b => 0 <= b < 256) bs2 ->
  hashlib.hex bs1 = hashlib.hex bs2 -> bs1 = bs2.
Proof.
  intros H1. revert bs2.
  induction H1 as [|b1 bs1 Hb1 _ IH]; intros bs2 H2 Heq;
    destruct H2 as [|b2 bs2 Hb2 H2]; try discriminate; [reflexivity|].
  cbn [hashlib.hex] in Heq. injection Heq as Hhi Hlo Hrest.
  apply hex_digit_inj in Hhi; [|apply Z.mod_pos_bound; lia..].
  apply hex_digit_inj in Hlo; [|apply Z.mod_pos_bound; lia..].
  f_equal; [|now apply IH].
  rewrite (Z.div_mod b1 16), (Z.div_mod b2 16) by lia.
  rewrite (Z.mod_small (b1 / 16) 16) in Hhi
    by (split; [apply Z.div_pos | apply Z.div_lt_upper_bound]; lia).
  rewrite (Z.mod_small (b2 / 16) 16) in Hhi
    by (split; [apply Z.div_pos | apply Z.div_lt_upper_bound]; lia).
  congruence.
Qed.

Lemma be_bytes_range n x : Forall (fun b => 0 <= b < 256) (hashlib.be_bytes n x).
Proof.
  induction n as [|n IH]; cbn; constructor; [|assumption].
  apply Z.mod_pos_bound. lia.
Qed.

Lemma digest_range msg : Forall (fun b => 0 <= b < 256) (hashlib.digest msg).
Proof.
  unfold hashlib.digest. generalize (fold_left hashlib.compress
    (hashlib.chunks (length (hashlib.pad msg)) 64 (hashlib.pad msg))
    hashlib.initial_state).
  intros ws. induction ws as [|w ws IH]; cbn [flat_map]; [constructor|].
  apply Forall_app. split; [apply be_bytes_range | assumption].
Qed.

(** The hexadecimal digest loses nothing of the 32 bytes of SHA-256. *)
Lemma sha256_hexdigest_eq s1 s2 :
  hashlib.sha256_hexdigest s1 = hashlib.sha256_hexdigest s2
  <-> hashlib.digest (py.bytes_of s1) = hashlib.digest (py.bytes_of s2).
Proof.
  unfold hashlib.sha256_hexdigest. split; [|now intros ->].
  apply hex_inj; apply digest_range.
Qed.




(** ** Tokens that carry a subject and an expiry *)

Lemma encode_subject_payload h expire key alg :
  alg ∈ jwt.hmac_algorithms ->
  jwt.encode (<["exp" := jwt.PDatetime expire]> (subject_payload h)) key alg
  = py.Return (jwt.Signed alg key (subject_claims h (py.timegm expire))).
Proof.
  intros Halg. unfold jwt.encode, subject_payload, subject_claims.
  assert (jwt.convert_time_claims
            (<["exp" := jwt.PDatetime expire]> {["sub" := jwt.PJson (jwt.JStr h)]})
          = <["exp" := jwt.PJson (jwt.JInt (py.timegm expire))]>
              {["sub" := jwt.PJson (jwt.JStr h)]}) as ->.
  { unfold jwt.convert_time_claims. cbn [foldr].
    rewrite alter_insert_ne, alter_singleton_ne by discriminate.
    rewrite alter_insert_ne, alter_singleton_ne by discriminate.
    rewrite alter_insert_eq. reflexivity. }
  assert (jwt.serializable
            (<["exp" := jwt.PJson (jwt.JInt (py.timegm expire))]>
               {["sub" := jwt.PJson (jwt.JStr h)]}) = true) as ->.
  { apply bool_decide_eq_true_2.
    apply map_Forall_insert_2; [eexists; reflexivity|].
    apply map_Forall_singleton. eexists; reflexivity. }
  rewrite lookup_insert_ne by discriminate.
  rewrite lookup_singleton_ne by discriminate.
  cbn [negb]. rewrite bool_decide_eq_true_2 by assumption.
  rewrite (omap_insert_Some _ _ _ _ (jwt.JInt (py.timegm expire))) by reflexivity.
  rewrite (omap_singleton_Some _ _ _ (jwt.JStr h)) by reflexivity.
  reflexivity.
Qed.

Lemma datetime_add_in_range dt td :
  py.datetime_min <= dt + td <= py.datetime_max ->
  py.datetime_add dt td = py.Return (dt + td).
Proof.
  intros [Hlo Hhi]. unfold py.datetime_add.
  apply Z.leb_le in Hlo, Hhi. now rewrite Hlo, Hhi.
Qed.

(** Issuing with an explicit non-zero lifetime. *)
Lemma create_access_token_subject g utcnow h delta :
  delta <> 0 ->
  auth.ALGORITHM g ∈ jwt.hmac_algorithms ->
  py.datetime_min <= utcnow + delta <= py.datetime_max ->
  auth.create_access_token g utcnow (subject_payload h) (Some delta)
  = py.Return (jwt.Signed (auth.ALGORITHM g) (auth.SECRET_KEY g)
                 (subject_claims h (py.timegm (utcnow + delta)))).
Proof.
  intros Hnz Halg Hrange. unfold auth.create_access_token.
  apply Z.eqb_neq in Hnz. rewrite Hnz. cbn [negb].
  rewrite datetime_add_in_range by assumption.
  apply encode_subject_payload. assumption.
Qed.

Lemma validate_claims_subject h exp now :
  jwt.validate_claims (subject_claims h exp) now
  = if exp * py.second <=? now then jwt.invalid py.ExpiredSignatureError
    else py.Return ().
Proof.
  unfold jwt.validate_claims, jwt.validate_iat, jwt.validate_nbf,
    jwt.validate_exp, jwt.validate_aud, jwt.validate_str_claim, subject_claims.
  rewrite !(lookup_insert_ne _ "exp" "iat"), !(lookup_singleton_ne "sub" "iat")
    by discriminate.
  rewrite !(lookup_insert_ne _ "exp" "nbf"), !(lookup_singleton_ne "sub" "nbf")
    by discriminate.
  rewrite !(lookup_insert_ne _ "exp" "aud"), !(lookup_singleton_ne "sub" "aud")
    by discriminate.
  rewrite !(lookup_insert_ne _ "exp" "jti"), !(lookup_singleton_ne "sub" "jti")
    by discriminate.
  rewrite !(lookup_insert_ne _ "exp" "sub") by discriminate.
  rewrite lookup_insert_eq, lookup_singleton_eq.
  cbn. destruct (exp * py.second <=? now); reflexivity.
Qed.

Lemma hmac_algorithm_nonempty alg : alg ∈ jwt.hmac_algorithms -> alg <> "".
Proof.
  unfold jwt.hmac_algorithms. intros Hin ->.
  repeat (apply elem_of_cons in Hin as [Hin | Hin]; [discriminate|]).
  now apply elem_of_nil in Hin.
Qed.

(** Decoding a token under the key and the algorithm it was signed with
    comes down to the validation of its claims. *)
Lemma decode_same_key alg key claims now :
  alg ∈ jwt.hmac_algorithms ->
  jwt.decode (jwt.Signed alg key claims) key [alg] now
  = (_ ← jwt.validate_claims claims now; py.Return claims).
Proof.
  intros Halg. unfold jwt.decode.
  rewrite (bool_decide_eq_false_2 (alg = "")) by now apply hmac_algorithm_nonempty.
  rewrite (bool_decide_eq_true_2 (alg ∈ [alg])) by (apply elem_of_cons; left; reflexivity).
  cbn [orb negb]. rewrite bool_decide_eq_true_2 by assumption.
  rewrite (bool_decide_eq_true_2 (key = key)) by reflexivity. reflexivity.
Qed.

Lemma verify_token_subject g now h exp :
  auth.ALGORITHM g ∈ jwt.hmac_algorithms ->
  auth.verify_token g now
    (jwt.Signed (auth.ALGORITHM g) (auth.SECRET_KEY g) (subject_claims h exp))
  = if exp * py.second <=? now then py.Raise (py.HTTP auth.expired_exception)
    else py.Return {| auth.username := h |}.
Proof.
  intros Halg. unfold auth.verify_token.
  rewrite decode_same_key by assumption. rewrite validate_claims_subject.
  destruct (exp * py.second <=? now); [reflexivity|].
  cbn. unfold subject_claims.
  rewrite lookup_insert_ne by discriminate. rewrite lookup_singleton_eq.
  reflexivity.
Qed.

(** Whatever the algorithm, a token that [encode] returns for a subject
    payload carries the subject and the expiry in whole seconds. *)
Lemma encode_subject_payload_inv h expire key alg tok :
  jwt.encode (<["exp" := jwt.PDatetime expire]> (subject_payload h)) key alg
  = py.Return tok ->
  tok = jwt.Signed alg key (subject_claims h (py.timegm expire)).
Proof.
  unfold jwt.encode, subject_payload, subject_claims.
  assert (jwt.convert_time_claims
            (<["exp" := jwt.PDatetime expire]> {["sub" := jwt.PJson (jwt.JStr h)]})
          = <["exp" := jwt.PJson (jwt.JInt (py.timegm expire))]>
              {["sub" := jwt.PJson (jwt.JStr h)]}) as ->.
  { unfold jwt.convert_time_claims. cbn [foldr].
    rewrite alter_insert_ne, alter_singleton_ne by discriminate.
    rewrite alter_insert_ne, alter_singleton_ne by discriminate.
    rewrite alter_insert_eq. reflexivity. }
  rewrite lookup_insert_ne by discriminate.
  rewrite lookup_singleton_ne by discriminate.
  rewrite (omap_insert_Some _ _ _ _ (jwt.JInt (py.timegm expire))) by reflexivity.
  rewrite (omap_singleton_Some _ _ _ (jwt.JStr h)) by reflexivity.
  repeat case_match; intros [= <-] || discriminate; reflexivity.
Qed.

Lemma timegm_lower_bound dt : dt - py.second < py.timegm dt * py.second.
Proof.
  unfold py.timegm, py.second.
  pose proof (Z.div_mod dt 1000000 ltac:(lia)).
  pose proof (Z.mod_pos_bound dt 1000000 ltac:(lia)). lia.
Qed.

Lemma timegm_upper_bound dt : py.timegm dt * py.second <= dt.
Proof.
  unfold py.timegm, py.second.
  pose proof (Z.div_mod dt 1000000 ltac:(lia)).
  pose proof (Z.mod_pos_bound dt 1000000 ltac:(lia)). lia.
Qed.

(** ** Issue and verify *)




(** C5 at the failing input: a zero [timedelta] is falsy, so the issuer
    takes the branch of the missing lifetime and signs an expiry of
    ACCESS_TOKEN_EXPIRE_MINUTES ahead; the token verifies at once, and
    half an hour minus one second later. *)
Theorem zero_lifetime_token_is_accepted :
  (forall g utcnow data,
     auth.create_access_token g utcnow data (Some 0)
     = auth.create_access_token g utcnow data None)
  /\ exists tok,
       auth.create_access_token default_globals 1700000000000000
         (subject_payload "alice") (Some 0) = py.Return tok
       /\ auth.verify_token default_globals 1700000000000000 tok
          = py.Return {| auth.username := "alice" |}
       /\ auth.verify_token default_globals (1700000000000000 + py.minutes 30 - py.second) tok
          = py.Return {| auth.username := "alice" |}.
Proof.
  split; [reflexivity|].
  exists (jwt.Signed "HS256" fallback_secret (subject_claims "alice" 1700001800)).
  split; [| split].
  - unfold auth.create_access_token. cbn [negb Z.eqb].
    change (py.timedelta_of_minutes (auth.ACCESS_TOKEN_EXPIRE_MINUTES default_globals))
      with (py.Return (A := Z) 1800000000).
    change (py.datetime_add 1700000000000000 1800000000)
      with (py.Return (A := Z) 1700001800000000).
    apply (encode_subject_payload "alice" 1700001800000000 fallback_secret "HS256").
    apply elem_of_cons; left; reflexivity.
  - apply (verify_token_subject default_globals 1700000000000000 "alice" 1700001800).
    apply elem_of_cons; left; reflexivity.
  - apply (verify_token_subject default_globals
             (1700000000000000 + py.minutes 30 - py.second) "alice" 1700001800).
    apply elem_of_cons; left; reflexivity.
Qed.

(** ** The token verifier *)

Lemma validate_exp_elapsed claims now :
  expiry_elapsed claims now ->
  jwt.validate_exp claims now = jwt.invalid py.ExpiredSignatureError.
Proof.
  intros (j & n & Hj & Hn & Hle). unfold jwt.validate_exp. rewrite Hj, Hn.
  cbn. apply Z.leb_le in Hle. now rewrite Hle.
Qed.

Lemma validate_claims_elapsed claims now :
  well_formed claims now -> expiry_elapsed claims now ->
  jwt.validate_claims claims now = jwt.invalid py.ExpiredSignatureError.
Proof.
  intros (Hiat & Hnbf & _) Hexp. unfold jwt.validate_claims.
  rewrite Hiat, Hnbf, (validate_exp_elapsed _ _ Hexp). reflexivity.
Qed.

Lemma validate_claims_passed claims now :
  well_formed claims now -> not_expired claims now ->
  jwt.validate_claims claims now = py.Return ().
Proof.
  intros (Hiat & Hnbf & Haud & Hsub & Hjti) Hexp. unfold jwt.validate_claims.
  rewrite Hiat, Hnbf, Hexp, Haud, Hsub, Hjti. reflexivity.
Qed.

(** A token signed with another key, or with a header algorithm that is
    not the configured one, is refused as invalid. *)
Lemma decode_foreign_key key algorithm now alg signing_key claims :
  algorithm ∈ jwt.hmac_algorithms ->
  signing_key <> key ->
  exists k, k <> py.ExpiredSignatureError
            /\ jwt.decode (jwt.Signed alg signing_key claims) key [algorithm] now
               = jwt.invalid k.
Proof.
  intros Halg Hkey. unfold jwt.decode.
  destruct (bool_decide (alg = "") || negb (bool_decide (alg ∈ [algorithm]))) eqn:Hallowed.
  - exists py.InvalidAlgorithmError. split; [discriminate | reflexivity].
  - apply orb_false_elim in Hallowed as [_ Hin].
    apply negb_false_iff, bool_decide_eq_true_1 in Hin.
    apply elem_of_cons in Hin as [-> | Hin]; [| now apply elem_of_nil in Hin].
    rewrite bool_decide_eq_true_2 by assumption.
    rewrite bool_decide_eq_false_2 by assumption. cbn [negb].
    exists py.InvalidSignatureError. split; [discriminate | reflexivity].
Qed.

Lemma handle_invalid {A} k :
  k <> py.ExpiredSignatureError ->
  auth.handle_jwt_errors (jwt.invalid (A := A) k)
  = py.Raise (py.HTTP auth.credentials_exception).
Proof. intros Hk. destruct k; try reflexivity. now destruct Hk. Qed.

(** The outcomes of [verify_token], under an HMAC algorithm, on the
    tokens whose time claims are numbers.  InvalidToken is the 401 response
    "Could not validate credentials", ExpiredToken the 401 response "Token
    has expired". *)
Theorem token_verifier_state_machine (g : auth.globals) :
  auth.ALGORITHM g ∈ jwt.hmac_algorithms ->
  (forall now s,
     auth.verify_token g now (jwt.Garbage s)
     = py.Raise (py.HTTP auth.credentials_exception))
  /\ (forall now alg key claims,
        key <> auth.SECRET_KEY g ->
        auth.verify_token g now (jwt.Signed alg key claims)
        = py.Raise (py.HTTP auth.credentials_exception))
  /\ (forall now claims,
        well_formed claims now -> expiry_elapsed claims now ->
        auth.verify_token g now
          (jwt.Signed (auth.ALGORITHM g) (auth.SECRET_KEY g) claims)
        = py.Raise (py.HTTP auth.expired_exception))
  /\ (forall now claims,
        well_formed claims now -> not_expired claims now ->
        claims !! "sub" = None ->
        auth.verify_token g now
          (jwt.Signed (auth.ALGORITHM g) (auth.SECRET_KEY g) claims)
        = py.Raise (py.HTTP auth.credentials_exception))
  /\ (forall now claims h,
        well_formed claims now -> not_expired claims now ->
        claims !! "sub" = Some (jwt.JStr h) ->
        auth.verify_token g now
          (jwt.Signed (auth.ALGORITHM g) (auth.SECRET_KEY g) claims)
        = py.Return {| auth.username := h |})
  /\ auth.credentials_exception <> auth.expired_exception.
Proof.
  intros Halg. repeat split.
  - intros now alg key claims Hkey. unfold auth.verify_token.
    destruct (decode_foreign_key (auth.SECRET_KEY g) (auth.ALGORITHM g) now
                alg key claims Halg Hkey) as (k & Hk & ->).
    now apply handle_invalid.
  - intros now claims Hwf Hexp. unfold auth.verify_token.
    rewrite decode_same_key by assumption.
    rewrite (validate_claims_elapsed _ _ Hwf Hexp). reflexivity.
  - intros now claims Hwf Hexp Hsub. unfold auth.verify_token.
    rewrite decode_same_key by assumption.
    rewrite (validate_claims_passed _ _ Hwf Hexp). cbn. now rewrite Hsub.
  - intros now claims h Hwf Hexp Hsub. unfold auth.verify_token.
    rewrite decode_same_key by assumption.
    rewrite (validate_claims_passed _ _ Hwf Hexp). cbn. now rewrite Hsub.
  - discriminate.
Qed.

Lemma token_verifier_state_machine_witness :
  auth.verify_token default_globals 1700000000000000 (jwt.Garbage "not.a.token")
  = py.Raise (py.HTTP auth.credentials_exception)
  /\ auth.verify_token default_globals 1700000000000000
       (jwt.Signed "HS256" "another-secret" (subject_claims "alice" 1700001800))
     = py.Raise (py.HTTP auth.credentials_exception)
  /\ auth.verify_token default_globals 1700000000000000
       (jwt.Signed "HS256" fallback_secret (subject_claims "alice" 1699999999))
     = py.Raise (py.HTTP auth.expired_exception)
  /\ auth.verify_token default_globals 1700000000000000
       (jwt.Signed "HS256" fallback_secret {[ "exp" := jwt.JInt 1700001800 ]})
     = py.Raise (py.HTTP auth.credentials_exception)
  /\ auth.verify_token default_globals 1700000000000000
       (jwt.Signed "HS256" fallback_secret (subject_claims "alice" 1700001800))
     = py.Return {| auth.username := "alice" |}.
Proof.
  destruct (token_verifier_state_machine default_globals)
    as (Hgarbage & Hkey & Hexpired & Hnosub & Hsub & _).
  { apply elem_of_cons; left; reflexivity. }
  split; [apply Hgarbage|].
  split; [apply Hkey; discriminate|].
  split.
  { apply (Hexpired 1700000000000000 (subject_claims "alice" 1699999999)).
    - repeat split; vm_compute; reflexivity.
    - exists (jwt.JInt 1699999999), 1699999999.
      repeat split; vm_compute; congruence. }
  split.
  { apply (Hnosub 1700000000000000 {[ "exp" := jwt.JInt 1700001800 ]}).
    - repeat split; vm_compute; reflexivity.
    - vm_compute; reflexivity.
    - vm_compute; reflexivity. }
  apply (Hsub 1700000000000000 (subject_claims "alice" 1700001800) "alice").
  - repeat split; vm_compute; reflexivity.
  - vm_compute; reflexivity.
  - vm_compute; reflexivity.
Defined.

(** *** A time claim that is null *)

Lemma validate_claims_null claims now :
  claims !! "iat" = Some jwt.JNull
  \/ (jwt.validate_iat claims now = py.Return ()
      /\ claims !! "nbf" = Some jwt.JNull)
  \/ (jwt.validate_iat claims now = py.Return ()
      /\ jwt.validate_nbf claims now = py.Return ()
      /\ claims !! "exp" = Some jwt.JNull) ->
  jwt.validate_claims claims now = py.Raise null_claim_error.
Proof.
  unfold jwt.validate_claims.
  intros [Hiat | [[Hiat Hnbf] | (Hiat & Hnbf & Hexp)]].
  - unfold jwt.validate_iat. rewrite Hiat. reflexivity.
  - rewrite Hiat. cbn. unfold jwt.validate_nbf. rewrite Hnbf. reflexivity.
  - rewrite Hiat. cbn. rewrite Hnbf. cbn.
    unfold jwt.validate_exp. rewrite Hexp. reflexivity.
Qed.

(** C4 at the failing input: [jwt.decode] calls [int] on the time claims
    and catches only [ValueError].  On a token signed with the configured
    key and algorithm in which the first time claim that does not pass is
    null ([iat], then [nbf], then [exp]), [int(None)] raises a [TypeError],
    which neither [except] clause of [verify_token] takes: the caller gets
    that exception, and neither InvalidToken nor ExpiredToken. *)
Theorem null_time_claim_escapes_verifier (g : auth.globals) (now : Z)
  (claims : gmap string jwt.json) :
  auth.ALGORITHM g ∈ jwt.hmac_algorithms ->
  claims !! "iat" = Some jwt.JNull
  \/ (jwt.validate_iat claims now = py.Return ()
      /\ claims !! "nbf" = Some jwt.JNull)
  \/ (jwt.validate_iat claims now = py.Return ()
      /\ jwt.validate_nbf claims now = py.Return ()
      /\ claims !! "exp" = Some jwt.JNull) ->
  auth.verify_token g now
    (jwt.Signed (auth.ALGORITHM g) (auth.SECRET_KEY g) claims)
  = py.Raise null_claim_error
  /\ null_claim_error <> py.HTTP auth.credentials_exception
  /\ null_claim_error <> py.HTTP auth.expired_exception.
Proof.
  intros Halg Hnull. split; [|split; discriminate].
  unfold auth.verify_token. rewrite decode_same_key by assumption.
  rewrite (validate_claims_null claims now Hnull). reflexivity.
Qed.

Lemma null_time_claim_escapes_verifier_witness :
  auth.verify_token default_globals 1700000000000000
    (jwt.Signed "HS256" fallback_secret (null_expiry_claims "alice"))
  = py.Raise null_claim_error
  /\ null_claim_error <> py.HTTP auth.credentials_exception
  /\ null_claim_error <> py.HTTP auth.expired_exception.
Proof.
  apply (null_time_claim_escapes_verifier default_globals 1700000000000000
           (null_expiry_claims "alice")).
  - vm_compute. apply elem_of_cons. left. reflexivity.
  - right. right. vm_compute. repeat split; reflexivity.
Defined.

(** ** The access guard *)

(** [jwt.decode] returns only payloads whose subject, if any, is a string. *)
Lemma decode_sub_str tok key algorithms now payload :
  jwt.decode tok key algorithms now = py.Return payload ->
  payload !! "sub" = None \/ exists h, payload !! "sub" = Some (jwt.JStr h).
Proof.
  unfold jwt.decode. destruct tok as [s | alg signing_key claims]; [discriminate|].
  repeat case_match; try discriminate.
  destruct (jwt.validate_claims claims now) as [[]|e] eqn:Hv; [|discriminate].
  intros [= <-]. unfold jwt.validate_claims in Hv.
  destruct (jwt.validate_iat claims now) as [[]|]; [|discriminate].
  destruct (jwt.validate_nbf claims now) as [[]|]; [|discriminate].
  destruct (jwt.validate_exp claims now) as [[]|]; [|discriminate].
  destruct (jwt.validate_aud claims) as [[]|]; [|discriminate].
  destruct (jwt.validate_str_claim "sub" py.InvalidSubjectError claims)
    as [[]|] eqn:Hsub; [|discriminate].
  unfold jwt.validate_str_claim in Hsub.
  destruct (claims !! "sub") as [[]|]; try discriminate; eauto.
Qed.

Lemma loaded_same_settings environ a g :
  auth.load environ = py.Return a -> main.load environ = py.Return g ->
  same_settings a g.
Proof.
  rewrite auth_load_eq, main_load_eq.
  destruct (expire_minutes_setting environ); [|discriminate].
  cbn. intros [= <-] [= <-]. split; reflexivity.
Qed.

(** With a bearer credential, [get_current_user] verifies the token as
    [auth.verify_token] does, then resolves the account. *)
Lemma get_current_user_bearer a g db now tok :
  same_settings a g ->
  main.get_current_user g db now (Some tok)
  = (token_data ← auth.verify_token a now tok;
     resolve_account db (auth.username token_data)).
Proof.
  intros [Hkey Halg]. unfold main.get_current_user, auth.verify_token.
  rewrite <- Hkey, <- Halg.
  destruct (jwt.decode tok (auth.SECRET_KEY a) [auth.ALGORITHM a] now)
    as [payload | e] eqn:Hdecode.
  - destruct (decode_sub_str _ _ _ _ _ Hdecode) as [Hsub | [h Hsub]];
      cbn; rewrite Hsub; reflexivity.
  - destruct e as [| | | | | k | | |]; try reflexivity. destruct k; reflexivity.
Qed.

(** A verified token whose subject is a deactivated account. *)
Lemma get_current_user_inactive a g db now tok h u :
  same_settings a g ->
  auth.verify_token a now tok = py.Return {| auth.username := h |} ->
  main.select_by_username db (jwt.JStr h) = [u] ->
  py.truthy (main.is_active u) = false ->
  main.get_current_user g db now (Some tok) = py.Raise (py.HTTP main.inactive_user).
Proof.
  intros Hsame Hv Hrows Hactive.
  rewrite (get_current_user_bearer a) by assumption.
  rewrite Hv. cbn. unfold resolve_account. rewrite Hrows. cbn.
  now rewrite Hactive.
Qed.



(** ** The role check *)

(** C8: the role check is applied to the account that identity
    resolution returned, and to nothing else.  Every route marked as
    requiring HR rights depends on [get_current_hr_user]; when identity
    resolution raises, that exception is the outcome and the role flag is
    not consulted; a deactivated account is refused as inactive, whatever
    its role flag, and not as lacking the role. *)
Theorem role_check_after_identity (a : auth.globals) (g : main.globals)
  (db : list main.User) (now : Z) (credentials : option jwt.token) :
  same_settings a g ->
  (forall e, main.hr_only e = true -> main.depends e = main.CurrentHrUser)
  /\ (forall err,
        main.get_current_user g db now credentials = py.Raise err ->
        main.get_current_hr_user g db now credentials = py.Raise err
        /\ forall e, main.hr_only e = true ->
             main.resolve_dependencies g e db now credentials = py.Raise err)
  /\ (forall u,
        main.get_current_user g db now credentials = py.Return u ->
        main.get_current_hr_user g db now credentials = main.require_hr u)
  /\ (forall tok h u,
        credentials = Some tok ->
        auth.verify_token a now tok = py.Return {| auth.username := h |} ->
        main.select_by_username db (jwt.JStr h) = [u] ->
        py.truthy (main.is_active u) = false ->
        main.get_current_hr_user g db now credentials
        = py.Raise (py.HTTP main.inactive_user))
  /\ main.inactive_user <> main.hr_required.
Proof.
  intros Hsame.
  assert (Hdep : forall e, main.hr_only e = true -> main.depends e = main.CurrentHrUser)
    by (intros []; (discriminate || reflexivity)).
  split; [exact Hdep|].
  split; [| split; [| split; [| discriminate]]].
  - intros err Hu.
    assert (main.get_current_hr_user g db now credentials = py.Raise err) as Hhr
      by (unfold main.get_current_hr_user; now rewrite Hu).
    split; [exact Hhr|].
    intros e He. unfold main.resolve_dependencies.
    rewrite (Hdep e He), Hhr. reflexivity.
  - intros u Hu. unfold main.get_current_hr_user. now rewrite Hu.
  - intros tok h u -> Hv Hrows Hactive. unfold main.get_current_hr_user.
    now rewrite (get_current_user_inactive a g db now tok h u Hsame Hv Hrows Hactive).
Qed.

Lemma role_check_after_identity_witness :
  main.get_current_hr_user default_main_globals example_db 1700000000000000
    (Some (token_for "bob" 1700001800))
  = py.Raise (py.HTTP main.inactive_user)
  /\ main.resolve_dependencies default_main_globals main.delete_candidate
       example_db 1700000000000000 None
     = py.Raise (py.HTTP main.not_authenticated)
  /\ main.get_current_hr_user default_main_globals example_db 1700000000000000
       (Some (token_for "alice" 1700001800))
     = main.require_hr alice.
Proof.
  split; [| split].
  - destruct (role_check_after_identity default_globals default_main_globals
                example_db 1700000000000000 (Some (token_for "bob" 1700001800)))
      as (_ & _ & _ & Hinactive & _); [split; reflexivity|].
    apply (Hinactive (token_for "bob" 1700001800) "bob" bob);
      vm_compute; reflexivity.
  - destruct (role_check_after_identity default_globals default_main_globals
                example_db 1700000000000000 None)
      as (_ & Hraise & _); [split; reflexivity|].
    destruct (Hraise (py.HTTP main.not_authenticated)) as [_ Hroute];
      [reflexivity|].
    apply Hroute. reflexivity.
  - destruct (role_check_after_identity default_globals default_main_globals
                example_db 1700000000000000 (Some (token_for "alice" 1700001800)))
      as (_ & _ & Hreturn & _); [split; reflexivity|].
    apply Hreturn. vm_compute. reflexivity.
Defined.

(** ** Login *)

(** C9, as stated, fails: for a deactivated account and a password that
    does not verify, login raises the 401 of incorrect credentials, not
    the inactive-account error. *)
Lemma inactive_wrong_password_is_incorrect_login :
  ~ (forall a db utcnow form u,
       main.select_by_username db (jwt.JStr (main.login_username form)) = [u] ->
       py.truthy (main.is_active u) = false ->
       main.login a db utcnow form = py.Raise (py.HTTP main.inactive_user)).
Proof.
  intros H.
  specialize (H default_globals example_db 1700000000000000
                {| main.login_username := "bob";
                   main.login_password := "wrong-password" |} bob).
  vm_compute in H. specialize (H eq_refl eq_refl). discriminate.
Qed.

(** C9 (amended): for a deactivated account login never returns a token;
    it raises the inactive-account error when the password verifies, and
    the error of incorrect credentials when it does not. *)
Theorem login_inactive_account (a : auth.globals) (db : list main.User)
  (utcnow : Z) (form : main.UserLogin) (u : main.User) :
  main.select_by_username db (jwt.JStr (main.login_username form)) = [u] ->
  py.truthy (main.is_active u) = false ->
  (exists e, main.login a db utcnow form = py.Raise e)
  /\ (auth.verify_password a (main.login_password form) (main.hashed_password u)
      = py.Return true ->
      main.login a db utcnow form = py.Raise (py.HTTP main.inactive_user))
  /\ (auth.verify_password a (main.login_password form) (main.hashed_password u)
      = py.Return false ->
      main.login a db utcnow form = py.Raise (py.HTTP main.incorrect_login)).
Proof.
  intros Hrows Hactive. unfold main.login. rewrite Hrows. cbn.
  destruct (auth.verify_password a (main.login_password form)
              (main.hashed_password u)) as [[] | e]; cbn; rewrite ?Hactive; cbn.
  - split; [eauto|]. split; [reflexivity | discriminate].
  - split; [eauto|]. split; [discriminate | reflexivity].
  - split; [eauto|]. split; discriminate.
Qed.

Lemma login_inactive_account_witness :
  (exists e,
     main.login default_globals example_db 1700000000000000
       {| main.login_username := "bob"; main.login_password := "password123" |}
     = py.Raise e)
  /\ main.login default_globals example_db 1700000000000000
       {| main.login_username := "bob"; main.login_password := "password123" |}
     = py.Raise (py.HTTP main.inactive_user).
Proof.
  destruct (login_inactive_account default_globals example_db 1700000000000000
              {| main.login_username := "bob"; main.login_password := "password123" |}
              bob) as (Hraise & Hinactive & _);
    [vm_compute; reflexivity | reflexivity |].
  split; [exact Hraise|].
  apply Hinactive. vm_compute. reflexivity.
Defined.

Lemma timegm_plus_minutes dt n :
  py.timegm (dt + py.minutes n) = py.timegm dt + n * 60.
Proof.
  unfold py.timegm, py.minutes, py.second.
  replace (dt + n * 60 * 1000000) with (dt + (n * 60) * 1000000) by lia.
  apply Z.div_add. lia.
Qed.

(** With an explicit non-zero lifetime the issuer does not read
    ACCESS_TOKEN_EXPIRE_MINUTES. *)
Lemma create_access_token_explicit m a utcnow data delta :
  delta <> 0 ->
  auth.create_access_token (with_expire_minutes m a) utcnow data (Some delta)
  = auth.create_access_token a utcnow data (Some delta).
Proof.
  intros Hnz. unfold auth.create_access_token.
  apply Z.eqb_neq in Hnz. rewrite Hnz. reflexivity.
Qed.

Lemma login_ignores_expire_minutes m a db utcnow form :
  main.login (with_expire_minutes m a) db utcnow form = main.login a db utcnow form.
Proof.
  unfold main.login.
  destruct (main.scalar_one_or_none _) as [[u|]|e]; reflexivity.
Qed.

Lemma scalar_one_or_none_Some rows u :
  main.scalar_one_or_none rows = py.Return (Some u) -> rows = [u].
Proof. destruct rows as [|x [|y rows]]; cbn; congruence. Qed.

(** C10, as stated, fails by less than a second: a login two tenths into
    a second gets a token that is refused as expired one tenth of a second
    before the 30 minutes have elapsed. *)
Lemma login_token_expires_within_the_second :
  ~ (forall a db utcnow form response now,
       main.login a db utcnow form = py.Return response ->
       utcnow <= now < utcnow + py.minutes 30 ->
       exists token_data,
         auth.verify_token a now (main.access_token response)
         = py.Return token_data).
Proof.
  intros H.
  destruct (H default_globals example_db 1700000000200000
              {| main.login_username := "alice"; main.login_password := "password123" |}
              {| main.access_token := token_for "alice" 1700001800;
                 main.token_type := "bearer" |}
              (1700000000200000 + py.minutes 30 - 100000))
    as [token_data Hverify].
  - vm_compute. reflexivity.
  - unfold py.minutes, py.second. lia.
  - vm_compute in Hverify. discriminate.
Qed.

(** C10 (amended): the token of every successful login carries the
    subject of the account and, as expiry, the signing instant plus 30
    minutes in whole seconds, that is 1800 seconds after the second of the
    signing instant; under an HMAC algorithm it verifies before that second
    and is refused as expired from it on; the outcome of login is the same
    for every value of ACCESS_TOKEN_EXPIRE_MINUTES. *)
Theorem login_token_lifetime (a : auth.globals) (db : list main.User)
  (utcnow : Z) (form : main.UserLogin) (response : main.Token) :
  main.login a db utcnow form = py.Return response ->
  (exists u,
     main.select_by_username db (jwt.JStr (main.login_username form)) = [u]
     /\ py.datetime_add utcnow (py.minutes 30) = py.Return (utcnow + py.minutes 30)
     /\ main.access_token response
        = jwt.Signed (auth.ALGORITHM a) (auth.SECRET_KEY a)
            (subject_claims (main.username u) (py.timegm (utcnow + py.minutes 30)))
     /\ (auth.ALGORITHM a ∈ jwt.hmac_algorithms ->
         forall now,
           auth.verify_token a now (main.access_token response)
           = if (py.timegm utcnow + 30 * 60) * py.second <=? now
             then py.Raise (py.HTTP auth.expired_exception)
             else py.Return {| auth.username := main.username u |}))
  /\ py.timegm (utcnow + py.minutes 30) = py.timegm utcnow + 30 * 60
  /\ forall m, main.login (with_expire_minutes m a) db utcnow form
               = py.Return response.
Proof.
  intros Hlogin. split; [| split].
  - revert Hlogin. unfold main.login.
    destruct (main.scalar_one_or_none _) as [[u|]|e] eqn:Hrows; try discriminate.
    apply scalar_one_or_none_Some in Hrows. cbn.
    destruct (auth.verify_password a _ _) as [[]|e]; try discriminate.
    cbn. destruct (py.truthy (main.is_active u)); try discriminate.
    cbn. change (py.timedelta_of_minutes 30) with (py.Return (A := Z) (py.minutes 30)).
    cbn. unfold auth.create_access_token.
    change (negb (py.minutes 30 =? 0)) with true. cbn match.
    unfold py.datetime_add.
    destruct ((py.datetime_min <=? utcnow + py.minutes 30)
              && (utcnow + py.minutes 30 <=? py.datetime_max)); [|discriminate].
    cbn.
    destruct (jwt.encode _ _ _) as [tok|e] eqn:Hencode; [|discriminate].
    apply encode_subject_payload_inv in Hencode. subst tok.
    intros [= <-]. exists u. cbn [main.access_token].
    split; [assumption|]. split; [reflexivity|]. split; [reflexivity|].
    intros Halg now. rewrite verify_token_subject by assumption.
    now rewrite timegm_plus_minutes.
  - apply timegm_plus_minutes.
  - intros m. now rewrite login_ignores_expire_minutes.
Qed.

Lemma login_token_lifetime_witness :
  (exists u,
     main.select_by_username example_db (jwt.JStr "alice") = [u]
     /\ py.datetime_add 1700000000200000 (py.minutes 30)
        = py.Return (1700000000200000 + py.minutes 30)
     /\ token_for "alice" 1700001800
        = jwt.Signed "HS256" fallback_secret
            (subject_claims (main.username u)
               (py.timegm (1700000000200000 + py.minutes 30)))
     /\ ("HS256" ∈ jwt.hmac_algorithms ->
         forall now,
           auth.verify_token default_globals now (token_for "alice" 1700001800)
           = if (py.timegm 1700000000200000 + 30 * 60) * py.second <=? now
             then py.Raise (py.HTTP auth.expired_exception)
             else py.Return {| auth.username := main.username u |}))
  /\ py.timegm (1700000000200000 + py.minutes 30)
     = py.timegm 1700000000200000 + 30 * 60
  /\ forall m,
       main.login (with_expire_minutes m default_globals) example_db
         1700000000200000
         {| main.login_username := "alice"; main.login_password := "password123" |}
       = py.Return {| main.access_token := token_for "alice" 1700001800;
                      main.token_type := "bearer" |}.
Proof.
  apply (login_token_lifetime default_globals example_db 1700000000200000
           {| main.login_username := "alice"; main.login_password := "password123" |}
           {| main.access_token := token_for "alice" 1700001800;
              main.token_type := "bearer" |}).
  vm_compute. reflexivity.
Defined.

(** * Further properties of the code *)

(** ** The digest of a password *)

Lemma round_length st kw : length (hashlib.round st kw) = length st.
Proof.
  unfold hashlib.round.
  repeat (destruct st as [|? st]; try reflexivity).
Qed.

Lemma fold_round_length kws st :
  length (fold_left hashlib.round kws st) = length st.
Proof.
  revert st. induction kws as [|kw kws IH]; intros st; simpl; [reflexivity|].
  rewrite IH. apply round_length.
Qed.

Lemma compress_length st block : length (hashlib.compress st block) = length st.
Proof.
  unfold hashlib.compress. rewrite length_zip_with, fold_round_length. lia.
Qed.

Lemma fold_compress_length blocks st :
  length (fold_left hashlib.compress blocks st) = length st.
Proof.
  revert st. induction blocks as [|b blocks IH]; intros st; simpl; [reflexivity|].
  rewrite IH. apply compress_length.
Qed.

Lemma be_bytes_length n x : length (hashlib.be_bytes n x) = n.
Proof. induction n as [|n IH]; simpl; congruence. Qed.

Lemma flat_map_be_bytes_length ws :
  length (flat_map (hashlib.be_bytes 4) ws) = (4 * length ws)%nat.
Proof.
  induction ws as [|w ws IH]; [reflexivity|].
  cbn [flat_map]. rewrite length_app, be_bytes_length, IH. simpl. lia.
Qed.

Lemma digest_length msg : length (hashlib.digest msg) = 32%nat.
Proof.
  unfold hashlib.digest.
  rewrite flat_map_be_bytes_length, fold_compress_length. reflexivity.
Qed.

Lemma hex_length bs : String.length (hashlib.hex bs) = (2 * length bs)%nat.
Proof. induction bs as [|b bs IH]; simpl; [reflexivity|]. rewrite IH. lia. Qed.

Lemma hex_digit_hex_char n : 0 <= n < 16 -> hex_char (hashlib.hex_digit n) = true.
Proof.
  intros Hn. unfold hex_char, hashlib.hex_digit.
  destruct (Z.ltb_spec n 10).
  - rewrite N_ascii_embedding by lia. rewrite Z2N.id by lia.
    apply orb_true_iff; left. apply andb_true_iff; split; lia.
  - rewrite N_ascii_embedding by lia. rewrite Z2N.id by lia.
    apply orb_true_iff; right. apply andb_true_iff; split; lia.
Qed.

Lemma hex_hex_chars bs :
  forallb hex_char (list_ascii_of_string (hashlib.hex bs)) = true.
Proof.
  induction bs as [|b bs IH]; [reflexivity|].
  cbn [hashlib.hex list_ascii_of_string forallb].
  rewrite !hex_digit_hex_char, IH; [reflexivity| |].
  - apply Z.mod_pos_bound; lia.
  - apply Z.mod_pos_bound; lia.
Qed.

(** X1: the digest that [get_password_hash] returns is made of 64 lower-case
    hexadecimal digits, whatever the password and the salt: it is ASCII,
    so a comparison against it never raises, and it fits the 255
    characters of its column. *)
Theorem get_password_hash_format (g : auth.globals) (password : string) :
  String.length (auth.get_password_hash g password) = 64%nat
  /\ forallb hex_char (list_ascii_of_string (auth.get_password_hash g password)) = true
  /\ py.is_ascii (auth.get_password_hash g password) = true.
Proof.
  unfold auth.get_password_hash, hashlib.sha256_hexdigest. repeat split.
  - rewrite hex_length, digest_length. reflexivity.
  - apply hex_hex_chars.
  - apply hex_is_ascii.
Qed.

(** ** Configuration of the two modules *)

Lemma int_of_str_raises s e :
  py.int_of_str s = py.Raise e -> exists msg, e = py.ValueError msg.
Proof.
  unfold py.int_of_str.
  destruct (match py.lstrip (py.to_ascii (py.bytes_of s)) with [] => _ | _ => _ end)
    as [negative body].
  destruct (py.scan 0 0 false body) as [[[value n] rest]|]; [|intros [= <-]; eauto].
  destruct (py.max_str_digits <? n); [intros [= <-]; eauto|].
  destruct ((n =? 0) || negb (forallb py.is_space rest)); [intros [= <-]; eauto|].
  discriminate.
Qed.

(** X2: read from one environment, app/auth.py and app/main.py load
    together or fail together: when both load they hold the same secret,
    algorithm and default lifetime, and when they fail it is with the same
    [ValueError] of [int]. *)
Theorem loads_agree (environ : gmap string string) :
  match auth.load environ, main.load environ with
  | py.Return a, py.Return g =>
      auth.SECRET_KEY a = main.SECRET_KEY g
      /\ auth.ALGORITHM a = main.ALGORITHM g
      /\ auth.ACCESS_TOKEN_EXPIRE_MINUTES a = main.ACCESS_TOKEN_EXPIRE_MINUTES g
  | py.Raise e, py.Raise e' => e = e' /\ exists msg, e = py.ValueError msg
  | _, _ => False
  end.
Proof.
  rewrite auth_load_eq, main_load_eq.
  destruct (expire_minutes_setting environ) as [n|e] eqn:Hn; cbn.
  - repeat split.
  - split; [reflexivity|]. unfold expire_minutes_setting in Hn.
    destruct (environ !! "ACCESS_TOKEN_EXPIRE_MINUTES"); [|discriminate].
    eapply int_of_str_raises, Hn.
Qed.

(** ** What the issuer signs *)

Lemma encode_inv payload key alg tok :
  jwt.encode payload key alg = py.Return tok ->
  tok = jwt.Signed alg key (omap jwt.dumps_value (jwt.convert_time_claims payload)).
Proof.
  unfold jwt.encode. repeat case_match; try discriminate; now intros [= <-].
Qed.

Lemma convert_time_claims_exp data expire :
  omap jwt.dumps_value
    (jwt.convert_time_claims (<["exp" := jwt.PDatetime expire]> data)) !! "exp"
  = Some (jwt.JInt (py.timegm expire)).
Proof.
  unfold jwt.convert_time_claims. cbn [foldr].
  rewrite lookup_omap, lookup_alter_eq.
  rewrite !lookup_alter_ne by discriminate.
  rewrite lookup_insert_eq. reflexivity.
Qed.

Lemma create_access_token_eq g utcnow data expires_delta :
  auth.create_access_token g utcnow data expires_delta
  = (delta ← applied_lifetime g expires_delta;
     expire ← py.datetime_add utcnow delta;
     jwt.encode (<["exp" := jwt.PDatetime expire]> data)
       (auth.SECRET_KEY g) (auth.ALGORITHM g)).
Proof.
  unfold auth.create_access_token, applied_lifetime.
  destruct expires_delta as [delta|]; [destruct (negb (delta =? 0))|];
    try reflexivity;
    destruct (py.timedelta_of_minutes _); reflexivity.
Qed.

(** X3: every token that [create_access_token] returns is signed with the
    configured key and algorithm and carries as [exp] the signing instant
    plus the applied lifetime, in whole seconds; an [exp] that the caller
    put in [data] is overwritten and never reaches the token. *)
Theorem issued_token_expiry (g : auth.globals) (utcnow : Z)
  (data : gmap string jwt.pyval) (expires_delta : option Z) (tok : jwt.token) :
  auth.create_access_token g utcnow data expires_delta = py.Return tok ->
  exists delta claims,
    applied_lifetime g expires_delta = py.Return delta
    /\ py.datetime_min <= utcnow + delta <= py.datetime_max
    /\ tok = jwt.Signed (auth.ALGORITHM g) (auth.SECRET_KEY g) claims
    /\ claims !! "exp" = Some (jwt.JInt (py.timegm (utcnow + delta)))
    /\ forall v, auth.create_access_token g utcnow (<["exp" := v]> data) expires_delta
                 = py.Return tok.
Proof.
  intros Hissue.
  assert (Hsame : forall v,
    auth.create_access_token g utcnow (<["exp" := v]> data) expires_delta
    = auth.create_access_token g utcnow data expires_delta).
  { intros v. rewrite !create_access_token_eq.
    destruct (applied_lifetime g expires_delta) as [delta|]; [|reflexivity]. cbn.
    destruct (py.datetime_add utcnow delta) as [expire|]; [|reflexivity]. cbn.
    now rewrite insert_insert_eq. }
  pose proof Hissue as Hissue0.
  rewrite create_access_token_eq in Hissue.
  destruct (applied_lifetime g expires_delta) as [delta|]; [|discriminate].
  cbn in Hissue. unfold py.datetime_add in Hissue.
  destruct ((py.datetime_min <=? utcnow + delta)
            && (utcnow + delta <=? py.datetime_max)) eqn:Hrange; [|discriminate].
  cbn in Hissue. apply encode_inv in Hissue.
  exists delta, (omap jwt.dumps_value (jwt.convert_time_claims
                   (<["exp" := jwt.PDatetime (utcnow + delta)]> data))).
  split; [reflexivity|]. split; [lia|]. split; [assumption|].
  split; [apply convert_time_claims_exp|].
  intros v. now rewrite Hsame.
Qed.

Lemma issued_token_expiry_witness :
  exists delta claims,
    applied_lifetime default_globals (Some (py.minutes 30)) = py.Return delta
    /\ py.datetime_min <= 1700000000200000 + delta <= py.datetime_max
    /\ token_for "alice" 1700001800
       = jwt.Signed (auth.ALGORITHM default_globals) (auth.SECRET_KEY default_globals)
           claims
    /\ claims !! "exp" = Some (jwt.JInt (py.timegm (1700000000200000 + delta)))
    /\ forall v,
         auth.create_access_token default_globals 1700000000200000
           (<["exp" := v]> (<["exp" := jwt.PJson (jwt.JInt 0)]> (subject_payload "alice")))
           (Some (py.minutes 30))
         = py.Return (token_for "alice" 1700001800).
Proof.
  apply (issued_token_expiry default_globals 1700000000200000
           (<["exp" := jwt.PJson (jwt.JInt 0)]> (subject_payload "alice"))
           (Some (py.minutes 30)) (token_for "alice" 1700001800)).
  vm_compute. reflexivity.
Defined.

(** ** What the verifier accepts *)

Lemma decode_inv tok key algorithms now payload :
  jwt.decode tok key algorithms now = py.Return payload ->
  exists alg,
    tok = jwt.Signed alg key payload
    /\ alg ∈ algorithms
    /\ alg ∈ jwt.hmac_algorithms
    /\ jwt.validate_claims payload now = py.Return ().
Proof.
  unfold jwt.decode. destruct tok as [s | alg signing_key claims]; [discriminate|].
  destruct (bool_decide (alg = "") || negb (bool_decide (alg ∈ algorithms)))
    eqn:Halg; [discriminate|].
  apply orb_false_iff in Halg as [_ Halg].
  apply negb_false_iff, bool_decide_eq_true in Halg.
  destruct (bool_decide (alg ∈ jwt.hmac_algorithms)) eqn:Hhmac.
  - apply bool_decide_eq_true in Hhmac.
    destruct (negb (bool_decide (signing_key = key))) eqn:Hkey; [discriminate|].
    apply negb_false_iff, bool_decide_eq_true in Hkey. subst signing_key.
    destruct (jwt.validate_claims claims now) as [[]|e] eqn:Hv; [|discriminate].
    intros [= <-]. exists alg. auto.
  - repeat case_match; discriminate.
Qed.

Lemma decode_raises_no_http tok key algorithms now e :
  jwt.decode tok key algorithms now <> py.Raise (py.HTTP e).
Proof.
  unfold jwt.decode, jwt.validate_claims, jwt.validate_iat, jwt.validate_nbf,
    jwt.validate_exp, jwt.validate_aud, jwt.validate_str_claim, jwt.int_claim,
    jwt.invalid.
  destruct tok as [s | alg signing_key claims]; [discriminate|].
  repeat (case_match; cbn; try discriminate).
Qed.

Lemma validate_exp_ahead claims now e :
  jwt.validate_exp claims now = py.Return () ->
  claims !! "exp" = Some (jwt.JInt e) -> now < e * py.second.
Proof.
  unfold jwt.validate_exp. intros Hv Hexp. rewrite Hexp in Hv. cbn in Hv.
  destruct (Z.leb_spec (e * py.second) now); [discriminate | assumption].
Qed.

Lemma validate_claims_exp claims now :
  jwt.validate_claims claims now = py.Return () ->
  jwt.validate_exp claims now = py.Return ().
Proof.
  unfold jwt.validate_claims.
  destruct (jwt.validate_iat claims now) as [[]|]; [|discriminate].
  destruct (jwt.validate_nbf claims now) as [[]|]; [|discriminate].
  destruct (jwt.validate_exp claims now) as [[]|]; [reflexivity|discriminate].
Qed.

Lemma verify_token_inv g now tok token_data :
  auth.verify_token g now tok = py.Return token_data ->
  exists claims,
    tok = jwt.Signed (auth.ALGORITHM g) (auth.SECRET_KEY g) claims
    /\ auth.ALGORITHM g ∈ jwt.hmac_algorithms
    /\ claims !! "sub" = Some (jwt.JStr (auth.username token_data))
    /\ jwt.validate_claims claims now = py.Return ()
    /\ forall e, claims !! "exp" = Some (jwt.JInt e) -> now < e * py.second.
Proof.
  unfold auth.verify_token. intros Hverify.
  destruct (jwt.decode tok (auth.SECRET_KEY g) [auth.ALGORITHM g] now)
    as [payload | e] eqn:Hdecode.
  - apply decode_inv in Hdecode as (alg & -> & Hin & Hhmac & Hvalid).
    apply list_elem_of_singleton in Hin. subst alg.
    exists payload. cbn in Hverify.
    destruct (payload !! "sub") as [[| | |h]|] eqn:Hsub; try discriminate.
    injection Hverify as <-. cbn.
    repeat split; try assumption.
    intros e. apply validate_exp_ahead, validate_claims_exp, Hvalid.
  - cbn in Hverify. destruct e as [| | | | | k | | |]; try discriminate.
    destruct k; discriminate.
Qed.



(** *** Expiry is final *)

Lemma int_claim_not_expired k j e :
  k <> py.ExpiredSignatureError ->
  jwt.int_claim k j = py.Raise e ->
  e <> py.InvalidTokenError py.ExpiredSignatureError.
Proof.
  unfold jwt.int_claim, jwt.invalid. intros Hk.
  destruct j as [|b|n|s]; try discriminate.
  - now intros [= <-].
  - destruct (py.int_of_str s); [discriminate|]. intros [= <-] [= ->]. now apply Hk.
Qed.

(** A check of [iat] or [nbf] that has passed passes at any later time,
    and neither check reports an expiry. *)
Lemma not_before_later k (claim : string) (claims : gmap string jwt.json) now now' :
  k <> py.ExpiredSignatureError ->
  now <= now' ->
  let check (t : Z) : py.outcome unit :=
    match claims !! claim with
    | None => py.Return ()
    | Some j =>
        n ← jwt.int_claim k j;
        if t <? n * py.second then jwt.invalid py.ImmatureSignatureError
        else py.Return ()
    end in
  check now <> jwt.invalid py.ExpiredSignatureError
  /\ (check now = py.Return () -> check now' = py.Return ()).
Proof.
  intros Hk Hle check. subst check. cbv beta.
  destruct (claims !! claim) as [j|]; [|split; [discriminate | reflexivity]].
  destruct (jwt.int_claim k j) as [n|e] eqn:Hj; cbn.
  - destruct (Z.ltb_spec now (n * py.second)); split; try discriminate.
    intros _. destruct (Z.ltb_spec now' (n * py.second)); [lia | reflexivity].
  - split; [|discriminate]. unfold jwt.invalid. intros [= ->].
    now apply (int_claim_not_expired k j _ Hk Hj).
Qed.

Lemma validate_exp_expired_later claims now now' :
  jwt.validate_exp claims now = jwt.invalid py.ExpiredSignatureError ->
  now <= now' ->
  jwt.validate_exp claims now' = jwt.invalid py.ExpiredSignatureError.
Proof.
  unfold jwt.validate_exp. intros Hv Hle.
  destruct (claims !! "exp") as [j|]; [|discriminate].
  destruct (jwt.int_claim py.DecodeError j) as [n|e] eqn:Hj; cbn in Hv |- *.
  - destruct (Z.leb_spec (n * py.second) now); [|discriminate].
    destruct (Z.leb_spec (n * py.second) now'); [reflexivity | lia].
  - exfalso. unfold jwt.invalid in Hv. injection Hv as ->.
    now apply (int_claim_not_expired py.DecodeError j _ ltac:(discriminate) Hj).
Qed.

Lemma validate_claims_expired_later claims now now' :
  jwt.validate_claims claims now = jwt.invalid py.ExpiredSignatureError ->
  now <= now' ->
  jwt.validate_claims claims now' = jwt.invalid py.ExpiredSignatureError.
Proof.
  intros Hv Hle. unfold jwt.validate_claims in *.
  destruct (not_before_later py.InvalidIssuedAtError "iat" claims now now')
    as [Hiat1 Hiat2]; [discriminate | assumption |].
  destruct (not_before_later py.DecodeError "nbf" claims now now')
    as [Hnbf1 Hnbf2]; [discriminate | assumption |].
  change (jwt.validate_iat claims now <> jwt.invalid py.ExpiredSignatureError) in Hiat1.
  change (jwt.validate_iat claims now = py.Return () ->
          jwt.validate_iat claims now' = py.Return ()) in Hiat2.
  change (jwt.validate_nbf claims now <> jwt.invalid py.ExpiredSignatureError) in Hnbf1.
  change (jwt.validate_nbf claims now = py.Return () ->
          jwt.validate_nbf claims now' = py.Return ()) in Hnbf2.
  destruct (jwt.validate_iat claims now) as [[]|e]; [|contradiction].
  rewrite Hiat2 by reflexivity. cbn in Hv |- *.
  destruct (jwt.validate_nbf claims now) as [[]|e]; [|contradiction].
  rewrite Hnbf2 by reflexivity. cbn in Hv |- *.
  destruct (jwt.validate_exp claims now) as [[]|e] eqn:Hexp.
  - exfalso. cbn in Hv. unfold jwt.validate_aud, jwt.validate_str_claim, jwt.invalid in Hv.
    repeat (case_match; cbn in Hv; try discriminate).
  - cbn in Hv. rewrite Hv in Hexp.
    now rewrite (validate_exp_expired_later claims now now' Hexp Hle).
Qed.

Lemma verify_token_expired g now tok :
  auth.verify_token g now tok = py.Raise (py.HTTP auth.expired_exception)
  <-> jwt.decode tok (auth.SECRET_KEY g) [auth.ALGORITHM g] now
      = jwt.invalid py.ExpiredSignatureError.
Proof.
  unfold auth.verify_token.
  pose proof (decode_raises_no_http tok (auth.SECRET_KEY g) [auth.ALGORITHM g] now)
    as Hhttp.
  destruct (jwt.decode tok (auth.SECRET_KEY g) [auth.ALGORITHM g] now)
    as [payload | e]; cbn.
  - split; [|discriminate]. repeat case_match; discriminate.
  - destruct e as [| | | | | k | | | e]; try (split; discriminate).
    + destruct k; split; try discriminate; reflexivity.
    + exfalso. now apply (Hhttp e).
Qed.

Lemma decode_expired_later tok key algorithms now now' :
  jwt.decode tok key algorithms now = jwt.invalid py.ExpiredSignatureError ->
  now <= now' ->
  jwt.decode tok key algorithms now' = jwt.invalid py.ExpiredSignatureError.
Proof.
  unfold jwt.decode. intros Hd Hle.
  destruct tok as [s | alg signing_key claims]; [discriminate|].
  repeat (case_match; try discriminate).
  destruct (jwt.validate_claims claims now) as [[]|e] eqn:Hv; [discriminate|].
  cbn in Hd. unfold jwt.invalid in Hd. injection Hd as ->.
  now rewrite (validate_claims_expired_later claims now now' Hv Hle).
Qed.

(** X5: a token that [verify_token] refuses as expired is refused as
    expired at every later time: neither [iat] nor [nbf] can turn the
    answer into another one. *)
Theorem expired_token_stays_expired (g : auth.globals) (tok : jwt.token)
  (now now' : Z) :
  auth.verify_token g now tok = py.Raise (py.HTTP auth.expired_exception) ->
  now <= now' ->
  auth.verify_token g now' tok = py.Raise (py.HTTP auth.expired_exception).
Proof.
  intros Hexpired Hle. apply verify_token_expired.
  apply verify_token_expired in Hexpired.
  eapply decode_expired_later; eassumption.
Qed.

Lemma expired_token_stays_expired_witness :
  auth.verify_token default_globals 1800000000000000 (token_for "alice" 1700001800)
  = py.Raise (py.HTTP auth.expired_exception).
Proof.
  apply (expired_token_stays_expired default_globals (token_for "alice" 1700001800)
           1700001800000000 1800000000000000).
  - vm_compute. reflexivity.
  - lia.
Defined.

(** *** The default lifetime *)

Lemma create_access_token_default g utcnow h :
  auth.ALGORITHM g ∈ jwt.hmac_algorithms ->
  py.timedelta_min <= py.minutes (auth.ACCESS_TOKEN_EXPIRE_MINUTES g) <= py.timedelta_max ->
  py.datetime_min <= utcnow + py.minutes (auth.ACCESS_TOKEN_EXPIRE_MINUTES g)
                  <= py.datetime_max ->
  auth.create_access_token g utcnow (subject_payload h) None
  = py.Return (jwt.Signed (auth.ALGORITHM g) (auth.SECRET_KEY g)
                 (subject_claims h (py.timegm utcnow
                                    + auth.ACCESS_TOKEN_EXPIRE_MINUTES g * 60))).
Proof.
  intros Halg Hdelta Hrange. unfold auth.create_access_token, py.timedelta_of_minutes.
  replace ((py.timedelta_min <=? py.minutes (auth.ACCESS_TOKEN_EXPIRE_MINUTES g))
           && (py.minutes (auth.ACCESS_TOKEN_EXPIRE_MINUTES g) <=? py.timedelta_max))
    with true by (symmetry; apply andb_true_iff; split; lia).
  cbn. rewrite datetime_add_in_range by assumption. cbn.
  rewrite encode_subject_payload by assumption.
  now rewrite timegm_plus_minutes.
Qed.



(** ** Whom the guards let through *)

Lemma select_by_username_elem db h u :
  u ∈ main.select_by_username db (jwt.JStr h) <-> u ∈ db /\ main.username u = h.
Proof.
  unfold main.select_by_username. rewrite list_elem_of_filter.
  split; intros [H1 H2]; split; try assumption; congruence.
Qed.

Lemma resolve_account_inv db h u :
  resolve_account db h = py.Return u ->
  main.select_by_username db (jwt.JStr h) = [u]
  /\ py.truthy (main.is_active u) = true.
Proof.
  unfold resolve_account.
  destruct (main.scalar_one_or_none _) as [[u'|]|e] eqn:Hrows; try discriminate.
  apply scalar_one_or_none_Some in Hrows. cbn.
  destruct (py.truthy (main.is_active u')) eqn:Hactive; [|discriminate].
  cbn. now intros [= <-].
Qed.

Lemma settings_of_main (g : main.globals) :
  same_settings
    {| auth.SECRET_KEY := main.SECRET_KEY g; auth.ALGORITHM := main.ALGORITHM g;
       auth.ACCESS_TOKEN_EXPIRE_MINUTES := main.ACCESS_TOKEN_EXPIRE_MINUTES g;
       auth.PASSWORD_SALT := "" |} g.
Proof. split; reflexivity. Qed.

(** The account that the guard returns, and the token it came from. *)
Lemma get_current_user_inv g db now credentials u :
  main.get_current_user g db now credentials = py.Return u ->
  exists claims,
    credentials = Some (jwt.Signed (main.ALGORITHM g) (main.SECRET_KEY g) claims)
    /\ main.ALGORITHM g ∈ jwt.hmac_algorithms
    /\ claims !! "sub" = Some (jwt.JStr (main.username u))
    /\ jwt.validate_claims claims now = py.Return ()
    /\ main.select_by_username db (jwt.JStr (main.username u)) = [u]
    /\ py.truthy (main.is_active u) = true.
Proof.
  destruct credentials as [tok|]; [|discriminate].
  rewrite (get_current_user_bearer _ g db now tok (settings_of_main g)).
  destruct (auth.verify_token _ now tok) as [token_data|e] eqn:Hverify; [|discriminate].
  cbn. intros Hresolve.
  apply verify_token_inv in Hverify as (claims & -> & Halg & Hsub & Hvalid & _).
  apply resolve_account_inv in Hresolve as [Hrows Hactive].
  assert (Hu : u ∈ main.select_by_username db (jwt.JStr (auth.username token_data)))
    by (rewrite Hrows; apply elem_of_cons; now left).
  apply select_by_username_elem in Hu as [_ Hname].
  rewrite <- Hname in *. exists claims. cbn in *. auto 10.
Qed.



(** *** The role guard *)

Lemma scalar_one_or_none_raises rows e :
  main.scalar_one_or_none rows = py.Raise e -> e = py.MultipleResultsFound.
Proof. destruct rows as [|u [|u' rows]]; try discriminate. now intros [= <-]. Qed.

Lemma get_current_user_raises_http g db now credentials e :
  main.get_current_user g db now credentials = py.Raise (py.HTTP e) ->
  e ∈ [main.not_authenticated; main.expired_exception; main.credentials_exception;
       main.user_not_found; main.inactive_user].
Proof.
  unfold main.get_current_user.
  destruct credentials as [tok|];
    [|intros [= <-]; apply elem_of_cons; now left].
  pose proof (decode_raises_no_http tok (main.SECRET_KEY g) [main.ALGORITHM g] now)
    as Hhttp.
  destruct (jwt.decode tok (main.SECRET_KEY g) [main.ALGORITHM g] now)
    as [payload|e0]; cbn.
  - assert (Hrest : forall username : jwt.json,
      (user ← main.scalar_one_or_none (main.select_by_username db username);
       match user with
       | None => py.Raise (py.HTTP main.user_not_found)
       | Some user =>
           if negb (py.truthy (main.is_active user))
           then py.Raise (py.HTTP main.inactive_user)
           else py.Return user
       end) = py.Raise (py.HTTP e) ->
      e ∈ [main.not_authenticated; main.expired_exception;
           main.credentials_exception; main.user_not_found; main.inactive_user]).
    { intros username.
      destruct (main.scalar_one_or_none _) as [[u|]|e0] eqn:Hrows; cbn;
        [| |apply scalar_one_or_none_raises in Hrows; subst e0; discriminate].
      - destruct (negb (py.truthy (main.is_active u))); [|discriminate].
        intros [= <-]. set_solver.
      - intros [= <-]. set_solver. }
    destruct (payload !! "sub") as [[| | |]|];
      try exact (Hrest _); cbn; intros [= <-]; set_solver.
  - destruct e0 as [| | | | | k | | | e0]; cbn; try discriminate.
    + destruct k; cbn; intros [= <-]; set_solver.
    + exfalso. now apply (Hhttp e0).
Qed.

(** X8: [get_current_hr_user] returns exactly the accounts that
    [get_current_user] returns and whose HR flag is set; it raises the 403
    "HR privileges required" exactly when [get_current_user] returns an
    account without the flag, and for nothing that goes wrong before. *)
Theorem hr_guard_outcomes (g : main.globals) (db : list main.User) (now : Z)
  (credentials : option jwt.token) :
  (forall u,
     main.get_current_hr_user g db now credentials = py.Return u
     <-> main.get_current_user g db now credentials = py.Return u
         /\ py.truthy (main.is_hr u) = true)
  /\ (main.get_current_hr_user g db now credentials = py.Raise (py.HTTP main.hr_required)
      <-> exists u, main.get_current_user g db now credentials = py.Return u
                    /\ py.truthy (main.is_hr u) = false).
Proof.
  unfold main.get_current_hr_user, main.require_hr.
  pose proof (get_current_user_raises_http g db now credentials main.hr_required)
    as Hhttp.
  destruct (main.get_current_user g db now credentials) as [u0|e]; cbn.
  - destruct (py.truthy (main.is_hr u0)) eqn:Hhr; cbn; split.
    + intros u. split; [intros [= <-]; auto | intros [[= <-] _]; reflexivity].
    + split; [discriminate | intros (u & [= <-] & Hu); congruence].
    + intros u. split; [discriminate | intros [[= <-] Hu]; congruence].
    + split; [intros _; eauto | reflexivity].
  - split.
    + intros u. split; [discriminate | intros [[=] _]].
    + split; [|intros (u & [=] & _)].
      intros [= ->]. specialize (Hhttp eq_refl).
      repeat (apply elem_of_cons in Hhttp as [Hhttp|Hhttp]; [discriminate|]).
      now apply elem_of_nil in Hhttp.
Qed.

(** ** Login, then the guard *)

Lemma login_inv a db utcnow form response :
  main.login a db utcnow form = py.Return response ->
  exists u,
    main.select_by_username db (jwt.JStr (main.login_username form)) = [u]
    /\ auth.verify_password a (main.login_password form) (main.hashed_password u)
       = py.Return true
    /\ py.truthy (main.is_active u) = true
    /\ response
       = {| main.access_token :=
              jwt.Signed (auth.ALGORITHM a) (auth.SECRET_KEY a)
                (subject_claims (main.username u) (py.timegm utcnow + 30 * 60));
            main.token_type := "bearer" |}.
Proof.
  unfold main.login.
  destruct (main.scalar_one_or_none _) as [[u|]|e] eqn:Hrows; try discriminate.
  apply scalar_one_or_none_Some in Hrows. cbn.
  destruct (auth.verify_password a _ _) as [[]|e] eqn:Hpw; try discriminate.
  cbn. destruct (py.truthy (main.is_active u)) eqn:Hactive; try discriminate.
  cbn. change (py.timedelta_of_minutes 30) with (py.Return (A := Z) (py.minutes 30)).
  cbn. unfold auth.create_access_token.
  change (negb (py.minutes 30 =? 0)) with true. cbn match.
  unfold py.datetime_add.
  destruct ((py.datetime_min <=? utcnow + py.minutes 30)
            && (utcnow + py.minutes 30 <=? py.datetime_max)); [|discriminate].
  cbn.
  destruct (jwt.encode _ _ _) as [tok|e] eqn:Hencode; [|discriminate].
  apply encode_subject_payload_inv in Hencode. subst tok.
  intros [= <-]. exists u. rewrite timegm_plus_minutes. auto.
Qed.

(** X9: the token of a successful login, presented to the guard of the
    same table, resolves to the account of the login's username until 1800
    seconds after the second of the login, and is refused as expired from
    then on; the HR guard adds its role check to that account. *)
Theorem login_then_guard (a : auth.globals) (g : main.globals)
  (db : list main.User) (utcnow now : Z) (form : main.UserLogin)
  (response : main.Token) :
  same_settings a g ->
  auth.ALGORITHM a ∈ jwt.hmac_algorithms ->
  main.login a db utcnow form = py.Return response ->
  exists u,
    main.username u = main.login_username form
    /\ main.get_current_user g db now (Some (main.access_token response))
       = (if (py.timegm utcnow + 30 * 60) * py.second <=? now
          then py.Raise (py.HTTP main.expired_exception)
          else py.Return u)
    /\ main.get_current_hr_user g db now (Some (main.access_token response))
       = (if (py.timegm utcnow + 30 * 60) * py.second <=? now
          then py.Raise (py.HTTP main.expired_exception)
          else main.require_hr u).
Proof.
  intros Hsame Halg Hlogin.
  apply login_inv in Hlogin as (u & Hrows & _ & Hactive & ->).
  assert (Hname : main.username u = main.login_username form).
  { assert (Hu : u ∈ main.select_by_username db (jwt.JStr (main.login_username form)))
      by (rewrite Hrows; apply elem_of_cons; now left).
    now apply select_by_username_elem in Hu as [_ Hu]. }
  exists u. split; [assumption|]. cbn [main.access_token].
  assert (Hguard :
    main.get_current_user g db now
      (Some (jwt.Signed (auth.ALGORITHM a) (auth.SECRET_KEY a)
               (subject_claims (main.username u) (py.timegm utcnow + 30 * 60))))
    = (if (py.timegm utcnow + 30 * 60) * py.second <=? now
       then py.Raise (py.HTTP main.expired_exception)
       else py.Return u)).
  { rewrite (get_current_user_bearer a g db now _ Hsame).
    rewrite verify_token_subject by assumption.
    destruct ((py.timegm utcnow + 30 * 60) * py.second <=? now); [reflexivity|].
    cbn. unfold resolve_account. rewrite Hname, Hrows. cbn.
    now rewrite Hactive. }
  split; [assumption|]. unfold main.get_current_hr_user. rewrite Hguard.
  destruct ((py.timegm utcnow + 30 * 60) * py.second <=? now); reflexivity.
Qed.

Lemma login_then_guard_witness :
  exists u,
    main.username u = "carol"
    /\ main.get_current_user default_main_globals example_db 1700000060000000
         (Some (token_for "carol" 1700001800))
       = (if (py.timegm 1700000000200000 + 30 * 60) * py.second <=? 1700000060000000
          then py.Raise (py.HTTP main.expired_exception)
          else py.Return u)
    /\ main.get_current_hr_user default_main_globals example_db 1700000060000000
         (Some (token_for "carol" 1700001800))
       = (if (py.timegm 1700000000200000 + 30 * 60) * py.second <=? 1700000060000000
          then py.Raise (py.HTTP main.expired_exception)
          else main.require_hr u).
Proof.
  apply (login_then_guard default_globals default_main_globals example_db
           1700000000200000 1700000060000000
           {| main.login_username := "carol"; main.login_password := "password123" |}
           {| main.access_token := token_for "carol" 1700001800;
              main.token_type := "bearer" |}).
  - vm_compute. split; reflexivity.
  - vm_compute. apply elem_of_cons. left. reflexivity.
  - vm_compute. reflexivity.
Defined.

(** *** Stored digests that the login cannot match *)

Lemma verify_password_true a password digest :
  auth.verify_password a password digest = py.Return true ->
  digest = auth.get_password_hash a password.
Proof.
  unfold auth.verify_password, py.compare_digest.
  destruct (py.is_ascii _ && py.is_ascii digest); [|discriminate].
  intros [= Heq]. now apply bool_decide_eq_true in Heq.
Qed.

Lemma hex_first_char bs c s :
  hashlib.hex bs = String c s -> hex_char c = true.
Proof.
  intros Heq. pose proof (hex_hex_chars bs) as Hall. rewrite Heq in Hall.
  cbn in Hall. now apply andb_true_iff in Hall as [Hc _].
Qed.

Lemma valid_setting_first_char s :
  bcrypt.valid_setting s = true -> exists s', s = String "$" s'.
Proof.
  unfold bcrypt.valid_setting.
  destruct s as [|c s]; [discriminate|]. cbn [list_ascii_of_string].
  destruct (list_ascii_of_string s) as [|? [|? [|? [|? [|? [|? l]]]]]];
    try discriminate.
  intros H. repeat (apply andb_true_iff in H as [H _]).
  exists s. f_equal. unfold bcrypt.code in H. apply Z.eqb_eq in H.
  rewrite <- (ascii_N_embedding c). replace (N_of_ascii c) with 36%N by lia.
  reflexivity.
Qed.

(** X10: an account whose stored digest was written by
    [crud.hash_password] cannot log in: a bcrypt digest starts with [$],
    which no SHA-256 digest in hexadecimal does, so [auth.verify_password]
    never returns true on it, for no password. *)
Theorem bcrypt_account_cannot_login (a : auth.globals)
  (err_on_truncation : bool) (kdf : string -> string -> string)
  (salt secret : string)
  (db : list main.User) (utcnow : Z) (form : main.UserLogin) (u : main.User) :
  crud.hash_password err_on_truncation kdf salt secret
  = py.Return (main.hashed_password u) ->
  main.select_by_username db (jwt.JStr (main.login_username form)) = [u] ->
  (forall password,
     auth.verify_password a password (main.hashed_password u) <> py.Return true)
  /\ forall response, main.login a db utcnow form <> py.Return response.
Proof.
  intros Hhash Hrows.
  assert (Hno : forall password,
    auth.verify_password a password (main.hashed_password u) <> py.Return true).
  { intros password Hpw. apply verify_password_true in Hpw.
    unfold crud.hash_password, bcrypt.hashpw in Hhash.
    destruct (err_on_truncation && _); [discriminate|].
    destruct (bcrypt.valid_setting (substring 0 29 salt)) eqn:Hvalid; [|discriminate].
    injection Hhash as Hhash.
    apply valid_setting_first_char in Hvalid as [s' Hs']. rewrite Hs' in Hhash.
    rewrite string_app_cons in Hhash. rewrite Hpw in Hhash.
    unfold auth.get_password_hash, hashlib.sha256_hexdigest in Hhash.
    symmetry in Hhash. apply hex_first_char in Hhash. discriminate. }
  split; [assumption|].
  intros response Hlogin. apply login_inv in Hlogin as (u' & Hrows' & Hpw & _).
  rewrite Hrows in Hrows'. injection Hrows' as <-. now apply (Hno _ Hpw).
Qed.

Lemma bcrypt_account_cannot_login_witness :
  (forall password,
     auth.verify_password default_globals password (main.hashed_password dave)
     <> py.Return true)
  /\ forall response,
       main.login default_globals [alice; dave] 1700000000000000
         {| main.login_username := "dave"; main.login_password := "password123" |}
       <> py.Return response.
Proof.
  apply (bcrypt_account_cannot_login default_globals true example_kdf bcrypt_setting
           "password123" [alice; dave] 1700000000000000
           {| main.login_username := "dave"; main.login_password := "password123" |}
           dave).
  - vm_compute. reflexivity.
  - vm_compute. reflexivity.
Defined.

(** X11: for an account whose stored digest has a character that is
    not ASCII, login raises the [TypeError] of [secrets.compare_digest],
    whatever the password: neither a token nor the 401 of a wrong
    password. *)
Theorem login_non_ascii_digest (a : auth.globals) (db : list main.User)
  (utcnow : Z) (form : main.UserLogin) (u : main.User) :
  main.select_by_username db (jwt.JStr (main.login_username form)) = [u] ->
  py.is_ascii (main.hashed_password u) = false ->
  main.login a db utcnow form
  = py.Raise (py.TypeError
                "comparing strings with non-ASCII characters is not supported").
Proof.
  intros Hrows Hascii. unfold main.login. rewrite Hrows. cbn.
  unfold auth.verify_password, py.compare_digest.
  rewrite Hascii, andb_false_r. reflexivity.
Qed.

Lemma login_non_ascii_digest_witness :
  main.login default_globals [alice; erin] 1700000000000000
    {| main.login_username := "erin"; main.login_password := "password123" |}
  = py.Raise (py.TypeError
                "comparing strings with non-ASCII characters is not supported").
Proof.
  apply (login_non_ascii_digest default_globals [alice; erin] 1700000000000000
           {| main.login_username := "erin"; main.login_password := "password123" |}
           erin).
  - vm_compute. reflexivity.
  - vm_compute. reflexivity.
Defined.

(** ** Registration *)

Lemma filter_nil_iff {A} (P : A -> Prop) `{!forall x, Decision (P x)} (l : list A) :
  filter P l = [] <-> forall x, x ∈ l -> ~ P x.
Proof.
  split.
  - intros Hnil x Hx HP. now apply (filter_nil_not_elem_of P l x).
  - intros Hall. induction l as [|y l IH]; [reflexivity|].
    rewrite filter_cons_False by (apply Hall; now left).
    apply IH. intros x Hx. apply Hall. now right.
Qed.

Lemma existsb_false_iff {A} (f : A -> bool) (l : list A) :
  existsb f l = false <-> forall x, x ∈ l -> f x = false.
Proof.
  induction l as [|y l IH]; cbn.
  - split; [intros _ x Hx; now apply elem_of_nil in Hx | reflexivity].
  - rewrite orb_false_iff, IH. split.
    + intros [Hy Hl] x Hx. apply elem_of_cons in Hx as [->|Hx]; auto.
    + intros Hall. split; [apply Hall; now left|].
      intros x Hx. apply Hall. now right.
Qed.

Lemma scalar_one_or_none_None rows :
  main.scalar_one_or_none rows = py.Return None <-> rows = [].
Proof.
  destruct rows as [|u [|u' rows]]; cbn; split; try discriminate; reflexivity.
Qed.

Lemma user_conflicts_false row existing :
  handlers.user_conflicts row existing = false
  <-> main.id existing <> main.id row
      /\ main.email existing <> main.email row
      /\ main.username existing <> main.username row.
Proof.
  unfold handlers.user_conflicts.
  rewrite !orb_false_iff, !bool_decide_eq_false. tauto.
Qed.

Lemma register_ok_iff (accepts : main.User -> bool) (a : auth.globals)
  (users : list main.User) (new_id : Z) (user_data : handlers.UserCreate)
  (u : main.User) (users' : list main.User) :
  handlers.register accepts a users new_id user_data = sqlalchemy.Ok (u, users')
  <-> (main.id u = new_id
       /\ main.email u = handlers.create_email user_data
       /\ main.username u = handlers.create_username user_data
       /\ main.hashed_password u
          = auth.get_password_hash a (handlers.create_password user_data)
       /\ main.full_name u = handlers.create_full_name user_data
       /\ main.is_active u = Some true
       /\ main.is_hr u = Some (handlers.create_is_hr user_data))
      /\ users' = (users ++ [u])%list
      /\ accepts u = true
      /\ forall v, v ∈ users ->
           main.id v <> new_id
           /\ main.email v <> handlers.create_email user_data
           /\ main.username v <> handlers.create_username user_data.
Proof.
  unfold handlers.register, sqlalchemy.insert.
  set (row := {| main.id := new_id |}).
  set (matches := filter _ users).
  split.
  - destruct (main.scalar_one_or_none matches) as [[existing|]|e] eqn:Hrows;
      cbn; try discriminate.
    apply scalar_one_or_none_None in Hrows.
    destruct (accepts row) eqn:Haccepts; [|discriminate].
    destruct (existsb (handlers.user_conflicts row) users) eqn:Hconflicts;
      [discriminate|].
    cbn. intros [= <- <-].
    split; [repeat split|]. split; [reflexivity|]. split; [assumption|].
    intros v Hv.
    pose proof (proj1 (existsb_false_iff _ _) Hconflicts v Hv) as Hfree.
    now apply user_conflicts_false in Hfree.
  - intros ((Hid & Hemail & Hname & Hpw & Hfull & Hactive & Hhr)
            & -> & Haccepts & Hfresh).
    assert (Hu : u = row).
    { destruct u. cbn in *. subst. reflexivity. }
    subst u.
    assert (Hnil : matches = []).
    { apply filter_nil_iff. intros v Hv [He|Hn];
        destruct (Hfresh v Hv) as (_ & He' & Hn'); contradiction. }
    rewrite Hnil. cbn. rewrite Haccepts.
    replace (existsb (handlers.user_conflicts row) users) with false; [reflexivity|].
    symmetry. apply existsb_false_iff. intros v Hv.
    apply user_conflicts_false. apply (Hfresh v Hv).
Qed.

(** X12: [register] commits exactly when the database accepts the row
    and no account has the new key, the email or the username of the
    request; the row it appends holds the email, the username and the full
    name of the request, the SHA-256 digest of its password, the active
    flag set, and the HR flag as the request asks for it. *)
Theorem register_success (accepts : main.User -> bool) (a : auth.globals)
  (users : list main.User) (new_id : Z) (user_data : handlers.UserCreate)
  (u : main.User) (users' : list main.User) :
  handlers.register accepts a users new_id user_data = sqlalchemy.Ok (u, users')
  <-> (main.id u = new_id
       /\ main.email u = handlers.create_email user_data
       /\ main.username u = handlers.create_username user_data
       /\ main.hashed_password u
          = auth.get_password_hash a (handlers.create_password user_data)
       /\ main.full_name u = handlers.create_full_name user_data
       /\ main.is_active u = Some true
       /\ main.is_hr u = Some (handlers.create_is_hr user_data))
      /\ users' = (users ++ [u])%list
      /\ accepts u = true
      /\ forall v, v ∈ users ->
           main.id v <> new_id
           /\ main.email v <> handlers.create_email user_data
           /\ main.username v <> handlers.create_username user_data.
Proof. apply register_ok_iff. Qed.

Lemma NoDup_fmap_snoc {A B} (f : A -> B) (l : list A) (x : A) :
  NoDup (f <$> l) -> (forall y, y ∈ l -> f y <> f x) ->
  NoDup (f <$> (l ++ [x])%list).
Proof.
  intros Hl Hx. rewrite fmap_app. apply NoDup_app. split; [assumption|].
  split; [|apply NoDup_singleton].
  intros b Hb Hb'. apply list_elem_of_singleton in Hb'. subst b.
  apply list_elem_of_fmap in Hb as (y & Heq & Hy). now apply (Hx y Hy).
Qed.

(** With unique usernames a select by username has at most one row. *)
Lemma unique_username_select users h :
  NoDup (main.username <$> users) ->
  exists r, main.scalar_one_or_none (main.select_by_username users (jwt.JStr h))
            = py.Return r.
Proof.
  unfold main.select_by_username. intros Hl.
  induction users as [|v l IH]; [now exists None|].
  cbn [fmap list_fmap] in Hl. apply NoDup_cons in Hl as [Hv Hl].
  destruct (decide (jwt.JStr (main.username v) = jwt.JStr h)) as [Heq|Hne].
  - rewrite filter_cons_True by assumption.
    replace (filter _ l) with (@nil main.User); [now exists (Some v)|].
    symmetry. apply filter_nil_iff. intros w Hw Hw'.
    apply Hv. apply list_elem_of_fmap. exists w. split; [congruence | assumption].
  - rewrite filter_cons_False by assumption. now apply IH.
Qed.

(** X13: [register] keeps the keys, the emails and the usernames of
    the table free of repetitions, so that a select by username in login
    or in the guard never finds two rows. *)
Theorem register_keeps_unique (accepts : main.User -> bool) (a : auth.globals)
  (users : list main.User) (new_id : Z) (user_data : handlers.UserCreate)
  (u : main.User) (users' : list main.User) :
  unique_users users ->
  handlers.register accepts a users new_id user_data = sqlalchemy.Ok (u, users') ->
  unique_users users'
  /\ forall h, exists r,
       main.scalar_one_or_none (main.select_by_username users' (jwt.JStr h))
       = py.Return r.
Proof.
  intros (Hids & Hemails & Hnames) Hregister.
  apply register_ok_iff in Hregister
    as ((Hid & Hemail & Hname & _) & -> & _ & Hfresh).
  assert (Hunique : unique_users (users ++ [u])%list).
  { repeat split; apply NoDup_fmap_snoc; try assumption;
      intros v Hv; destruct (Hfresh v Hv) as (? & ? & ?); congruence. }
  split; [assumption|].
  intros h. apply unique_username_select, Hunique.
Qed.

Lemma register_keeps_unique_witness :
  unique_users (example_db ++ [frank])%list
  /\ forall h, exists r,
       main.scalar_one_or_none
         (main.select_by_username (example_db ++ [frank])%list (jwt.JStr h))
       = py.Return r.
Proof.
  apply (register_keeps_unique accepts_all default_globals example_db 6 frank_data
           frank (example_db ++ [frank])%list).
  - unfold unique_users.
    repeat split; refine (bool_decide_unpack _ _); vm_compute; exact I.
  - vm_compute. reflexivity.
Defined.

(** *** Registration that is refused *)

Lemma two_rows {R} (rows : list R) (x y : R) :
  x ∈ rows -> y ∈ rows -> x <> y ->
  exists r1 r2 rest, rows = r1 :: r2 :: rest.
Proof.
  intros Hx Hy Hne. destruct rows as [|r1 [|r2 rest]].
  - now apply elem_of_nil in Hx.
  - apply list_elem_of_singleton in Hx, Hy. congruence.
  - eauto.
Qed.

Lemma NoDup_fmap_eq {A B} (f : A -> B) (l : list A) (x y : A) :
  NoDup (f <$> l) -> x ∈ l -> y ∈ l -> f x = f y -> x = y.
Proof.
  induction l as [|z l IH]; intros Hl Hx Hy Heq; [now apply elem_of_nil in Hx|].
  cbn [fmap list_fmap] in Hl. apply NoDup_cons in Hl as [Hz Hl].
  apply elem_of_cons in Hx as [->|Hx]; apply elem_of_cons in Hy as [->|Hy].
  - reflexivity.
  - exfalso. apply Hz. rewrite Heq. now apply list_elem_of_fmap_2.
  - exfalso. apply Hz. rewrite <- Heq. now apply list_elem_of_fmap_2.
  - now apply IH.
Qed.

(** A select that exactly one row of a table without repeated rows
    satisfies. *)
Lemma filter_only {A} (P : A -> Prop) `{!forall x, Decision (P x)}
  (l : list A) (x : A) :
  NoDup l -> x ∈ l -> P x -> (forall y, y ∈ l -> P y -> y = x) ->
  filter P l = [x].
Proof.
  induction l as [|w l IH]; intros Hl Hx HPx Honly; [now apply elem_of_nil in Hx|].
  apply NoDup_cons in Hl as [Hw Hl].
  destruct (decide (P w)) as [HPw|HPw].
  - rewrite filter_cons_True by assumption.
    assert (w = x) by (apply Honly; [now left | assumption]). subst w.
    f_equal. apply filter_nil_iff. intros v Hv HPv.
    assert (v = x) by (apply Honly; [now right | assumption]). now subst v.
  - rewrite filter_cons_False by assumption.
    apply elem_of_cons in Hx as [->|Hx]; [contradiction|].
    apply IH; try assumption. intros v Hv. apply Honly. now right.
Qed.



(** *** Registration, then login, then the guards *)

Lemma select_by_username_snoc users u :
  (forall v, v ∈ users -> main.username v <> main.username u) ->
  main.select_by_username (users ++ [u])%list (jwt.JStr (main.username u)) = [u].
Proof.
  intros Hfresh. unfold main.select_by_username. rewrite filter_app.
  replace (filter _ users) with (@nil main.User).
  - rewrite app_nil_l, filter_cons_True by reflexivity. now rewrite filter_nil.
  - symmetry. apply filter_nil_iff. intros v Hv Heq.
    apply (Hfresh v Hv). congruence.
Qed.



(** ** The handlers of the candidates *)

Lemma get_current_hr_user_inv g db now credentials u :
  main.get_current_hr_user g db now credentials = py.Return u ->
  main.get_current_user g db now credentials = py.Return u
  /\ py.truthy (main.is_hr u) = true.
Proof.
  unfold main.get_current_hr_user, main.require_hr.
  destruct (main.get_current_user g db now credentials) as [u0|e];
    cbn; [|discriminate].
  destruct (py.truthy (main.is_hr u0)) eqn:Hhr; cbn; [|discriminate].
  now intros [= <-].
Qed.

Lemma generic_scalar_one_or_none_None {R} (rows : list R) :
  sqlalchemy.scalar_one_or_none rows = py.Return None <-> rows = [].
Proof.
  destruct rows as [|r [|r' rows]]; cbn; split; try discriminate; reflexivity.
Qed.

Lemma generic_scalar_one_or_none_Some {R} (rows : list R) (r : R) :
  sqlalchemy.scalar_one_or_none rows = py.Return (Some r) <-> rows = [r].
Proof.
  destruct rows as [|r0 [|r' rows]]; cbn; split; try discriminate;
    intros [= <-]; reflexivity.
Qed.

Lemma candidate_conflicts_false row existing :
  handlers.candidate_conflicts row existing = false
  <-> models.id existing <> models.id row
      /\ models.email existing <> models.email row.
Proof.
  unfold handlers.candidate_conflicts.
  rewrite !orb_false_iff, !bool_decide_eq_false. tauto.
Qed.

Lemma create_candidate_inv accepts g users candidates now credentials new_id db_now
  candidate c candidates' :
  handlers.create_candidate accepts g users candidates now credentials new_id db_now
    candidate = sqlalchemy.Ok (c, candidates') ->
  exists u,
    main.get_current_hr_user g users now credentials = py.Return u
    /\ c = {| models.id := new_id;
              models.first_name := handlers.new_first_name candidate;
              models.last_name := handlers.new_last_name candidate;
              models.email := handlers.new_email candidate;
              models.phone := handlers.new_phone candidate;
              models.position := Some (handlers.new_position candidate);
              models.status := Some (handlers.new_status candidate);
              models.experience_years := Some (handlers.new_experience_years candidate);
              models.resume_url := handlers.new_resume_url candidate;
              models.notes := handlers.new_notes candidate;
              models.recruiter_id := Some (main.id u);
              models.created_at := db_now;
              models.updated_at := None |}
    /\ candidates' = (candidates ++ [c])%list
    /\ accepts c = true
    /\ forall c0, c0 ∈ candidates ->
         models.id c0 <> new_id /\ models.email c0 <> handlers.new_email candidate.
Proof.
  unfold handlers.create_candidate, sqlalchemy.insert.
  destruct (main.get_current_hr_user g users now credentials) as [u|e];
    cbn; [|discriminate].
  destruct (sqlalchemy.scalar_one_or_none _) as [[existing|]|e] eqn:Hrows;
    cbn; try discriminate.
  set (row := {| models.id := new_id |}).
  destruct (accepts row) eqn:Haccepts; [|discriminate].
  destruct (existsb (handlers.candidate_conflicts row) candidates) eqn:Hconflicts;
    [discriminate|].
  cbn. intros [= <- <-]. exists u.
  split; [reflexivity|]. split; [reflexivity|]. split; [reflexivity|].
  split; [assumption|].
  intros c0 Hc0.
  pose proof (proj1 (existsb_false_iff _ _) Hconflicts c0 Hc0) as Hfree.
  now apply candidate_conflicts_false in Hfree.
Qed.

(** X16: [create_candidate] writes only for an active HR account of
    the users table: the row it appends has the key given by the database,
    the email of the request and that account as recruiter, and the keys
    and emails of the candidates stay free of repetitions. *)
Theorem create_candidate_sound (accepts : models.Candidate -> bool)
  (g : main.globals) (users : list main.User) (candidates : list models.Candidate)
  (now : Z) (credentials : option jwt.token) (new_id db_now : Z)
  (candidate : handlers.CandidateCreate) (c : models.Candidate)
  (candidates' : list models.Candidate) :
  handlers.create_candidate accepts g users candidates now credentials new_id db_now
    candidate = sqlalchemy.Ok (c, candidates') ->
  (exists u,
     main.get_current_user g users now credentials = py.Return u
     /\ u ∈ users
     /\ py.truthy (main.is_active u) = true
     /\ py.truthy (main.is_hr u) = true
     /\ models.recruiter_id c = Some (main.id u))
  /\ models.id c = new_id
  /\ models.email c = handlers.new_email candidate
  /\ candidates' = (candidates ++ [c])%list
  /\ (unique_candidates candidates -> unique_candidates candidates').
Proof.
  intros Hcreate.
  apply create_candidate_inv in Hcreate as (u & Hguard & -> & -> & _ & Hfresh).
  cbn [models.id models.email models.recruiter_id].
  apply get_current_hr_user_inv in Hguard as [Hguard Hhr].
  pose proof Hguard as Hinv.
  apply get_current_user_inv in Hinv as (claims & _ & _ & _ & _ & Hrows & Hactive).
  split; [|split; [reflexivity|split; [reflexivity|split; [reflexivity|]]]].
  - exists u. repeat split; try assumption.
    assert (Hu : u ∈ main.select_by_username users (jwt.JStr (main.username u)))
      by (rewrite Hrows; apply elem_of_cons; now left).
    now apply select_by_username_elem in Hu as [Hu _].
  - intros [Hids Hemails].
    split; (apply NoDup_fmap_snoc; [assumption|]);
      intros c0 Hc0; now destruct (Hfresh c0 Hc0).
Qed.

Lemma create_candidate_sound_witness :
  (exists u,
     main.get_current_user default_main_globals example_db 1700000060000000
       (Some (token_for "carol" 1700001800)) = py.Return u
     /\ u ∈ example_db
     /\ py.truthy (main.is_active u) = true
     /\ py.truthy (main.is_hr u) = true
     /\ models.recruiter_id grace = Some (main.id u))
  /\ models.id grace = 1
  /\ models.email grace = handlers.new_email grace_data
  /\ [grace] = ([] ++ [grace])%list
  /\ (unique_candidates [] -> unique_candidates [grace]).
Proof.
  apply (create_candidate_sound accepts_all default_main_globals example_db []
           1700000060000000 (Some (token_for "carol" 1700001800)) 1
           1700000000000000 grace_data grace [grace]).
  vm_compute. reflexivity.
Defined.

(** *** Reading a candidate *)

Lemma select_candidate_elem candidates candidate_id c :
  c ∈ handlers.select_candidate candidates candidate_id
  <-> c ∈ candidates /\ models.id c = candidate_id.
Proof.
  unfold handlers.select_candidate. rewrite list_elem_of_filter. tauto.
Qed.

Lemma select_candidate_snoc candidates c :
  (forall c0, c0 ∈ candidates -> models.id c0 <> models.id c) ->
  handlers.select_candidate (candidates ++ [c])%list (models.id c) = [c].
Proof.
  intros Hfresh. unfold handlers.select_candidate. rewrite filter_app.
  replace (filter _ candidates) with (@nil models.Candidate).
  - rewrite app_nil_l, filter_cons_True by reflexivity. now rewrite filter_nil.
  - symmetry. apply filter_nil_iff. intros c0 Hc0 Heq. now apply (Hfresh c0 Hc0).
Qed.

(** With a unique key a select by key has the row of that key or none. *)
Lemma select_candidate_unique candidates candidate_id :
  NoDup (models.id <$> candidates) ->
  handlers.select_candidate candidates candidate_id = []
  \/ exists c, handlers.select_candidate candidates candidate_id = [c].
Proof.
  unfold handlers.select_candidate. intros Hids.
  induction candidates as [|c l IH]; [now left|].
  cbn [fmap list_fmap] in Hids. apply NoDup_cons in Hids as [Hc Hids].
  destruct (decide (models.id c = candidate_id)) as [Heq|Hne].
  - right. exists c. rewrite filter_cons_True by assumption. f_equal.
    apply filter_nil_iff. intros c0 Hc0 Heq0. apply Hc.
    apply list_elem_of_fmap. exists c0. split; [congruence | assumption].
  - rewrite filter_cons_False by assumption. now apply IH.
Qed.



(** X18: a candidate that [create_candidate] has committed is what
    [read_candidate] returns under its key, for every authenticated
    account. *)
Theorem create_then_read (accepts : models.Candidate -> bool)
  (g : main.globals) (users : list main.User) (candidates : list models.Candidate)
  (now : Z) (credentials : option jwt.token) (new_id db_now : Z)
  (candidate : handlers.CandidateCreate) (c : models.Candidate)
  (candidates' : list models.Candidate)
  (users' : list main.User) (now' : Z) (credentials' : option jwt.token)
  (reader : main.User) :
  handlers.create_candidate accepts g users candidates now credentials new_id db_now
    candidate = sqlalchemy.Ok (c, candidates') ->
  main.get_current_user g users' now' credentials' = py.Return reader ->
  handlers.read_candidate g users' candidates' now' credentials' (models.id c)
  = py.Return c.
Proof.
  intros Hcreate Hguard.
  apply create_candidate_inv in Hcreate as (u & _ & Hc & -> & _ & Hfresh).
  unfold handlers.read_candidate. rewrite Hguard. cbn.
  rewrite select_candidate_snoc; [reflexivity|].
  intros c0 Hc0. destruct (Hfresh c0 Hc0) as [Hid _]. now rewrite Hc.
Qed.

Lemma create_then_read_witness :
  handlers.read_candidate default_main_globals example_db [grace]
    1700000120000000 (Some (token_for "alice" 1700001800)) (models.id grace)
  = py.Return grace.
Proof.
  apply (create_then_read accepts_all default_main_globals example_db []
           1700000060000000 (Some (token_for "carol" 1700001800)) 1
           1700000000000000 grace_data grace [grace]
           example_db 1700000120000000 (Some (token_for "alice" 1700001800)) alice).
  - vm_compute. reflexivity.
  - vm_compute. reflexivity.
Defined.

(** *** Updating and deleting a candidate *)

Lemma update_candidate_inv accepts g users candidates now credentials db_now
  candidate_id candidate_update c' candidates' :
  handlers.update_candidate accepts g users candidates now credentials db_now
    candidate_id candidate_update = sqlalchemy.Ok (c', candidates') ->
  exists u c,
    main.get_current_hr_user g users now credentials = py.Return u
    /\ handlers.select_candidate candidates candidate_id = [c]
    /\ models.id c' = models.id c
    /\ models.email c' = models.email c
    /\ models.recruiter_id c' = models.recruiter_id c
    /\ models.created_at c' = models.created_at c
    /\ (c' = c /\ candidates' = candidates
        \/ accepts c' = true
           /\ models.updated_at c' = Some db_now
           /\ candidates' = map (fun r => if bool_decide (models.id r = models.id c')
                                         then c' else r) candidates).
Proof.
  unfold handlers.update_candidate.
  destruct (main.get_current_hr_user g users now credentials) as [u|e];
    cbn; [|discriminate].
  destruct (sqlalchemy.scalar_one_or_none _) as [[c|]|e] eqn:Hrows;
    cbn; try discriminate.
  apply generic_scalar_one_or_none_Some in Hrows.
  destruct (default (Some (models.first_name c))
              (handlers.set_first_name candidate_update)) as [first_name|];
    [|discriminate].
  destruct (default (Some (models.last_name c))
              (handlers.set_last_name candidate_update)) as [last_name|];
    [|discriminate].
  case_bool_decide as Hsame.
  - intros [= <- <-]. exists u, c. repeat split; try assumption. now left.
  - destruct (accepts _) eqn:Haccepts; [|discriminate].
    intros [= <- <-]. exists u, c. cbn. repeat split; try assumption.
    right. repeat split; assumption.
Qed.

Lemma map_replace_fmap {A B} (f : A -> B) (P : A -> bool) (x : A) (l : list A) :
  (forall r, r ∈ l -> P r = true -> f r = f x) ->
  f <$> map (fun r => if P r then x else r) l = f <$> l.
Proof.
  induction l as [|r l IH]; intros Hsame; [reflexivity|].
  cbn. f_equal.
  - destruct (P r) eqn:HP; [|reflexivity]. symmetry. apply Hsame; [now left | assumption].
  - apply IH. intros r' Hr'. apply Hsame. now right.
Qed.

(** X19: [update_candidate] writes only for an HR account and to the
    row of the requested key: the key, the email, the recruiter and the
    creation time of that row stay as they were, as do the keys and emails
    of the whole table. *)
Theorem update_candidate_keeps_identity (accepts : models.Candidate -> bool)
  (g : main.globals) (users : list main.User) (candidates : list models.Candidate)
  (now : Z) (credentials : option jwt.token) (db_now candidate_id : Z)
  (candidate_update : handlers.CandidateUpdate) (c' : models.Candidate)
  (candidates' : list models.Candidate) :
  handlers.update_candidate accepts g users candidates now credentials db_now
    candidate_id candidate_update = sqlalchemy.Ok (c', candidates') ->
  (exists u,
     main.get_current_user g users now credentials = py.Return u
     /\ py.truthy (main.is_hr u) = true)
  /\ (exists c,
        c ∈ candidates
        /\ models.id c = candidate_id
        /\ models.id c' = candidate_id
        /\ models.email c' = models.email c
        /\ models.recruiter_id c' = models.recruiter_id c
        /\ models.created_at c' = models.created_at c)
  /\ models.id <$> candidates' = models.id <$> candidates
  /\ models.email <$> candidates' = models.email <$> candidates
  /\ (unique_candidates candidates -> unique_candidates candidates').
Proof.
  intros Hupdate.
  apply update_candidate_inv in Hupdate
    as (u & c & Hguard & Hrows & Hid & Hemail & Hrecruiter & Hcreated & Hwritten).
  apply get_current_hr_user_inv in Hguard as [Hguard Hhr].
  assert (Hc : c ∈ candidates /\ models.id c = candidate_id).
  { apply select_candidate_elem. rewrite Hrows. now apply list_elem_of_singleton. }
  destruct Hc as [Hin Hkey].
  assert (Hids : models.id <$> candidates' = models.id <$> candidates).
  { destruct Hwritten as [[_ ->] | (_ & _ & ->)]; [reflexivity|].
    apply map_replace_fmap. intros r _ Hr. now apply bool_decide_eq_true in Hr. }
  assert (Hemails : models.email <$> candidates' = models.email <$> candidates).
  { destruct Hwritten as [[_ ->] | (_ & _ & ->)]; [reflexivity|].
    apply map_replace_fmap. intros r Hr Hsame. apply bool_decide_eq_true in Hsame.
    rewrite Hemail. f_equal.
    assert (Hsel : r ∈ handlers.select_candidate candidates candidate_id)
      by (apply select_candidate_elem; split; [assumption | congruence]).
    rewrite Hrows in Hsel. now apply list_elem_of_singleton in Hsel. }
  split; [eauto|]. split; [exists c; repeat split; congruence|].
  split; [assumption|]. split; [assumption|].
  unfold unique_candidates. now rewrite Hids, Hemails.
Qed.

Lemma update_candidate_keeps_identity_witness :
  (exists u,
     main.get_current_user default_main_globals example_db 1700000060000000
       (Some (token_for "carol" 1700001800)) = py.Return u
     /\ py.truthy (main.is_hr u) = true)
  /\ (exists c,
        c ∈ [grace]
        /\ models.id c = 1
        /\ models.id (update_row grace) = 1
        /\ models.email (update_row grace) = models.email c
        /\ models.recruiter_id (update_row grace) = models.recruiter_id c
        /\ models.created_at (update_row grace) = models.created_at c)
  /\ models.id <$> [update_row grace] = models.id <$> [grace]
  /\ models.email <$> [update_row grace] = models.email <$> [grace]
  /\ (unique_candidates [grace] -> unique_candidates [update_row grace]).
Proof.
  apply (update_candidate_keeps_identity accepts_all default_main_globals example_db
           [grace] 1700000060000000 (Some (token_for "carol" 1700001800))
           1700000060000000 1 (status_update "hired")
           (update_row grace) [update_row grace]).
  vm_compute. reflexivity.
Defined.

(** X20: for an HR account and an existing candidate, an update that
    sets no field returns the row and leaves the table as they were, and
    one that sets the first or the last name to null is refused by the
    database at the commit. *)
Theorem update_candidate_edges (accepts : models.Candidate -> bool)
  (g : main.globals) (users : list main.User) (candidates : list models.Candidate)
  (now : Z) (credentials : option jwt.token) (db_now candidate_id : Z)
  (candidate_update : handlers.CandidateUpdate) (u : main.User)
  (c : models.Candidate) :
  main.get_current_hr_user g users now credentials = py.Return u ->
  handlers.select_candidate candidates candidate_id = [c] ->
  handlers.update_candidate accepts g users candidates now credentials db_now
    candidate_id no_update = sqlalchemy.Ok (c, candidates)
  /\ (handlers.set_first_name candidate_update = Some None
      \/ handlers.set_last_name candidate_update = Some None ->
      handlers.update_candidate accepts g users candidates now credentials db_now
        candidate_id candidate_update = sqlalchemy.CommitFailed).
Proof.
  intros Hguard Hrows. unfold handlers.update_candidate.
  rewrite Hguard, Hrows. cbn. split.
  - rewrite bool_decide_eq_true_2; [reflexivity|]. now destruct c.
  - intros [-> | ->]; cbn; [reflexivity|].
    destruct (default (Some (models.first_name c))
                (handlers.set_first_name candidate_update)); reflexivity.
Qed.

Lemma update_candidate_edges_witness :
  handlers.update_candidate accepts_all default_main_globals example_db [grace]
    1700000060000000 (Some (token_for "carol" 1700001800)) 1700000060000000 1
    no_update = sqlalchemy.Ok (grace, [grace])
  /\ (handlers.set_first_name null_first_name = Some None
      \/ handlers.set_last_name null_first_name = Some None ->
      handlers.update_candidate accepts_all default_main_globals example_db [grace]
        1700000060000000 (Some (token_for "carol" 1700001800)) 1700000060000000 1
        null_first_name = sqlalchemy.CommitFailed).
Proof.
  apply (update_candidate_edges accepts_all default_main_globals example_db [grace]
           1700000060000000 (Some (token_for "carol" 1700001800))
           1700000060000000 1 null_first_name carol grace).
  - vm_compute. reflexivity.
  - vm_compute. reflexivity.
Defined.

(** *** Deleting *)

Lemma delete_candidate_inv g users candidates applications now credentials
  candidate_id candidates' :
  handlers.delete_candidate g users candidates applications now credentials
    candidate_id = sqlalchemy.Ok ((), candidates') ->
  exists u c,
    main.get_current_hr_user g users now credentials = py.Return u
    /\ handlers.select_candidate candidates candidate_id = [c]
    /\ (forall application, application ∈ applications ->
          models.candidate_id application <> candidate_id)
    /\ candidates' = filter (fun r => models.id r <> candidate_id) candidates.
Proof.
  unfold handlers.delete_candidate.
  destruct (main.get_current_hr_user g users now credentials) as [u|e];
    cbn; [|discriminate].
  destruct (sqlalchemy.scalar_one_or_none _) as [[c|]|e] eqn:Hrows;
    cbn; try discriminate.
  apply generic_scalar_one_or_none_Some in Hrows.
  assert (Hkey : models.id c = candidate_id).
  { assert (Hc : c ∈ handlers.select_candidate candidates candidate_id)
      by (rewrite Hrows; now apply list_elem_of_singleton).
    now apply select_candidate_elem in Hc. }
  destruct (existsb _ applications) eqn:Hrefs; [discriminate|].
  intros [= <-]. exists u, c. rewrite Hkey. repeat split; try assumption.
  intros application Happ.
  pose proof (proj1 (existsb_false_iff _ _) Hrefs application Happ) as Hfree.
  apply bool_decide_eq_false in Hfree. congruence.
Qed.

(** X21: [delete_candidate] deletes only for an HR account; it removes
    the rows of the requested key and no other, and reading that key
    afterwards raises the 404 "Candidate not found". *)
Theorem delete_then_read (g : main.globals) (users : list main.User)
  (candidates : list models.Candidate)
  (applications : list models.VacancyApplication) (now : Z)
  (credentials : option jwt.token) (candidate_id : Z)
  (candidates' : list models.Candidate)
  (users' : list main.User) (now' : Z) (credentials' : option jwt.token)
  (reader : main.User) :
  handlers.delete_candidate g users candidates applications now credentials
    candidate_id = sqlalchemy.Ok ((), candidates') ->
  main.get_current_user g users' now' credentials' = py.Return reader ->
  (exists u,
     main.get_current_user g users now credentials = py.Return u
     /\ py.truthy (main.is_hr u) = true)
  /\ (forall r, r ∈ candidates' <-> r ∈ candidates /\ models.id r <> candidate_id)
  /\ handlers.read_candidate g users' candidates' now' credentials' candidate_id
     = py.Raise (py.HTTP handlers.candidate_not_found).
Proof.
  intros Hdelete Hreader.
  apply delete_candidate_inv in Hdelete as (u & c & Hguard & _ & _ & ->).
  apply get_current_hr_user_inv in Hguard as [Hguard Hhr].
  split; [eauto|]. split.
  - intros r. rewrite list_elem_of_filter. tauto.
  - unfold handlers.read_candidate. rewrite Hreader. cbn.
    replace (handlers.select_candidate _ candidate_id) with (@nil models.Candidate);
      [reflexivity|].
    symmetry. apply filter_nil_iff. intros r Hr Heq.
    apply list_elem_of_filter in Hr as [Hne _]. contradiction.
Qed.

Lemma delete_then_read_witness :
  (exists u,
     main.get_current_user default_main_globals example_db 1700000060000000
       (Some (token_for "carol" 1700001800)) = py.Return u
     /\ py.truthy (main.is_hr u) = true)
  /\ (forall r, r ∈ [] <-> r ∈ [grace] /\ models.id r <> 1)
  /\ handlers.read_candidate default_main_globals example_db []
       1700000120000000 (Some (token_for "alice" 1700001800)) 1
     = py.Raise (py.HTTP handlers.candidate_not_found).
Proof.
  apply (delete_then_read default_main_globals example_db [grace] []
           1700000060000000 (Some (token_for "carol" 1700001800)) 1 []
           example_db 1700000120000000 (Some (token_for "alice" 1700001800)) alice).
  - vm_compute. reflexivity.
  - vm_compute. reflexivity.
Defined.

(** X22: a candidate to whom an application refers cannot be
    deleted: the commit fails and the table stays as it was. *)
Theorem delete_referenced_candidate (g : main.globals) (users : list main.User)
  (candidates : list models.Candidate)
  (applications : list models.VacancyApplication) (now : Z)
  (credentials : option jwt.token) (candidate_id : Z) (u : main.User)
  (c : models.Candidate) (application : models.VacancyApplication) :
  main.get_current_hr_user g users now credentials = py.Return u ->
  handlers.select_candidate candidates candidate_id = [c] ->
  application ∈ applications ->
  models.candidate_id application = candidate_id ->
  handlers.delete_candidate g users candidates applications now credentials
    candidate_id = sqlalchemy.CommitFailed.
Proof.
  intros Hguard Hrows Happ Href. unfold handlers.delete_candidate.
  rewrite Hguard, Hrows. cbn.
  assert (Hkey : models.id c = candidate_id).
  { assert (Hc : c ∈ handlers.select_candidate candidates candidate_id)
      by (rewrite Hrows; now apply list_elem_of_singleton).
    now apply select_candidate_elem in Hc. }
  destruct (existsb _ applications) eqn:Hrefs; [reflexivity|].
  pose proof (proj1 (existsb_false_iff _ _) Hrefs application Happ) as Hfree.
  apply bool_decide_eq_false in Hfree. congruence.
Qed.

Lemma delete_referenced_candidate_witness :
  handlers.delete_candidate default_main_globals example_db [grace]
    [grace_application] 1700000060000000 (Some (token_for "carol" 1700001800)) 1
  = sqlalchemy.CommitFailed.
Proof.
  apply (delete_referenced_candidate default_main_globals example_db [grace]
           [grace_application] 1700000060000000
           (Some (token_for "carol" 1700001800)) 1 carol grace grace_application).
  - vm_compute. reflexivity.
  - vm_compute. reflexivity.
  - apply elem_of_cons. left. reflexivity.
  - reflexivity.
Defined.

(** ** What the client sees of an exception *)


(** ** The paths declared with the bearer scheme *)

Lemma prefix_spec p s :
  String.prefix p s = true <-> exists b, s = (p ++ b)%string.
Proof.
  revert p. induction s as [|d s IH]; intros [|c p]; cbn.
  - split; [intros _; now exists "" | reflexivity].
  - split; [discriminate | intros [b Hb]; discriminate].
  - split; [intros _; now exists (String d s) | reflexivity].
  - destruct (ascii_dec c d) as [->|Hne].
    + rewrite IH. split; intros [b Hb]; exists b.
      * rewrite string_app_cons. now f_equal.
      * rewrite string_app_cons in Hb. now injection Hb.
    + split; [discriminate|]. intros [b Hb]. rewrite string_app_cons in Hb.
      injection Hb as Hc _. now destruct Hne.
Qed.

(** [contains p s] is [p in s]: [p] stands somewhere in [s]. *)
Lemma contains_spec p s :
  openapi.contains p s = true <-> exists a b, s = (a ++ p ++ b)%string.
Proof.
  induction s as [|c s IH]; cbn [openapi.contains]; rewrite orb_true_iff, prefix_spec.
  - split.
    + intros [[b Hb] | ?]; [|discriminate]. exists "", b. now rewrite string_app_nil.
    + intros (a & b & Heq). left. exists b.
      destruct a; [now rewrite string_app_nil in Heq | discriminate].
  - rewrite IH. split.
    + intros [[b Hb] | (a & b & ->)].
      * exists "", b. now rewrite string_app_nil.
      * exists (String c a), b. now rewrite string_app_cons.
    + intros (a & b & Heq). destruct a as [|d a].
      * left. exists b. now rewrite string_app_nil in Heq.
      * right. rewrite string_app_cons in Heq. injection Heq as _ ->. eauto.
Qed.

(** X24: [custom_openapi] declares the bearer scheme on the paths that
    contain one of its protected paths: those are the paths of all routes
    that depend on a user, and also of the two vacancy reads, which depend
    on none. *)
Theorem declared_security (e : main.endpoint) :
  (openapi.secured e = true
   <-> main.depends e <> main.NoUser
       \/ e = main.read_vacancies \/ e = main.read_vacancy)
  /\ (openapi.secured e = true
      <-> exists p a b, p ∈ openapi.protected_paths
                        /\ openapi.path e = (a ++ p ++ b)%string).
Proof.
  split.
  - destruct e; vm_compute; split;
      try (intros _; first [ left; discriminate | right; left; reflexivity
                           | right; right; reflexivity ]);
      try reflexivity; try discriminate;
      intros [H | [H | H]]; try discriminate; now destruct H.
  - unfold openapi.secured. rewrite existsb_exists. split.
    + intros (p & Hin & Hc). apply contains_spec in Hc as (a & b & Heq).
      exists p, a, b. split; [now apply list_elem_of_In | exact Heq].
    + intros (p & a & b & Hin & Heq). exists p.
      split; [now apply list_elem_of_In | apply contains_spec; eauto].
Qed.
